(** * OrderSheet Scanner: extraction heuristic, review state and export sink

    A shallow embedding of [services/geminiService.ts] (extractInvoiceData)
    and of the state handlers of [App.tsx] (updateItem, getSortedExportData,
    copyToClipboard, uploadToScript, handleManualExport, handleFileUpload),
    followed by the properties the specification states about them.

    Conventions of the embedding.
    - A JavaScript [number] is a finite decimal [m / 10^e] or [NaN].
      Addition, subtraction and comparison are exact; they agree with the
      IEEE doubles of the runtime on the integer quantities an order sheet
      carries (below 2^53).  Infinities and binary rounding are outside the
      model.
    - A string is a Rocq [string], read as the UTF-8 text of the JS string.
    - Host functions whose result depends on the runtime (string to number
      conversion, lower-casing, locale collation, trimming, JSON parsing)
      are members of the class [JSRuntime]; an ASCII instance is given for
      running the handlers on concrete inputs.
    - Arrays live in a store and are named by locations, so that the
      in-place [Array.prototype.sort] and the copies made by spread syntax
      are told apart. *)

From Stdlib Require Import ZArith Ascii String List Sorted Permutation Lia.
From stdpp Require Import base list strings pretty.

Local Open Scope string_scope.
Local Open Scope Z_scope.

(** ** Numbers *)

Inductive number : Type :=
  | NaN
  | Dec (m : Z) (e : nat).

Definition pow10 (e : nat) : Z := 10 ^ Z.of_nat e.

Definition num_of_Z (z : Z) : number := Dec z 0.

Coercion num_of_Z : Z >-> number.

(** [a + b] and [a - b]: both operands are brought to the larger scale. *)
Definition num_lift2 (f : Z -> Z -> Z) (a b : number) : number :=
  match a, b with
  | Dec m1 e1, Dec m2 e2 =>
      let e := Nat.max e1 e2 in
      Dec (f (m1 * pow10 (e - e1)) (m2 * pow10 (e - e2))) e
  | _, _ => NaN
  end.

Definition num_add : number -> number -> number := num_lift2 Z.add.
Definition num_sub : number -> number -> number := num_lift2 Z.sub.

(** Ordering of two numbers; [None] when either is [NaN]. *)
Definition num_compare (a b : number) : option comparison :=
  match a, b with
  | Dec m1 e1, Dec m2 e2 => Some (Z.compare (m1 * pow10 e2) (m2 * pow10 e1))
  | _, _ => None
  end.

(** [a === b] on numbers. *)
Definition num_eqb (a b : number) : bool :=
  match num_compare a b with Some Eq => true | _ => false end.

(** [a > b]. *)
Definition num_gtb (a b : number) : bool :=
  match num_compare a b with Some Gt => true | _ => false end.

(** [Math.max(a, b)]: [NaN] as soon as one argument is [NaN]. *)
Definition Math_max (a b : number) : number :=
  match num_compare a b with
  | None => NaN
  | Some Lt => b
  | Some _ => a
  end.

(** ToBoolean on a number: [0] and [NaN] are falsy. *)
Definition num_truthy (a : number) : bool :=
  match a with
  | NaN => false
  | Dec m _ => negb (m =? 0)
  end.

(** [a || 0]. *)
Definition or_zero (a : number) : number :=
  if num_truthy a then a else 0.

(** Trailing zeros of the fraction are dropped before printing. *)
Fixpoint num_normalize (m : Z) (e : nat) : Z * nat :=
  match e with
  | O => (m, O)
  | S e' => if m mod 10 =? 0 then num_normalize (m / 10) e' else (m, e)
  end.

Fixpoint zeros (n : nat) : string :=
  match n with
  | O => ""
  | S n' => String "0"%char (zeros n')
  end.

Definition pad_left (width : nat) (s : string) : string :=
  zeros (width - String.length s) +:+ s.

(** Number::toString in plain decimal notation (the notation the runtime
    uses for magnitudes from 1e-6 up to 1e21). *)
Definition number_to_string (a : number) : string :=
  match a with
  | NaN => "NaN"
  | Dec m e =>
      let '(m', e') := num_normalize m e in
      let a := Z.abs m' in
      let sign := if m' <? 0 then "-" else "" in
      let int_part := pretty (a / pow10 e') in
      match e' with
      | O => sign +:+ int_part
      | S _ => sign +:+ int_part +:+ "." +:+ pad_left e' (pretty (a mod pow10 e'))
      end
  end.

(** ** Strings *)

Definition TAB : string := String "009"%char "".
Definition LF : string := String "010"%char "".
Definition DQUOTE : string := String "034"%char "".
Definition BACKSLASH : string := String "092"%char "".

(** [s.startsWith(p)]. *)
Fixpoint startsWith (p s : string) : bool :=
  match p, s with
  | EmptyString, _ => true
  | String a p', String b s' => if Ascii.eqb a b then startsWith p' s' else false
  | String _ _, EmptyString => false
  end.

(** [s.includes(p)]: [p] starts at some position of [s]. *)
Fixpoint includes (s p : string) : bool :=
  startsWith p s ||
  match s with
  | EmptyString => false
  | String _ s' => includes s' p
  end.

(** [parts.join(sep)]. *)
Fixpoint array_join (sep : string) (parts : list string) : string :=
  match parts with
  | [] => ""
  | [x] => x
  | x :: rest => x +:+ sep +:+ array_join sep rest
  end.

(** ** Values of loosely typed fields

    [updateItem] takes its [value] as [any], and the number inputs of the
    review table pass [e.target.value], a string.  A numeric field of an
    item therefore holds a number or the text typed by the user. *)

Inductive jsval : Type :=
  | JNum (n : number)
  | JStr (s : string).

(** ** The data model of [types.ts] *)

Record InvoiceItem : Type := {
  id : string;
  description : string;
  vendor : string;
  inStock : jsval;
  par : jsval;
  order : jsval;
  price : jsval
}.

Inductive Status : Type := Draft | Uploaded.

(** Arrays of items are named by their location in the store. *)
Abbreviation loc := nat (only parsing).

(** [items] of a record ([record_items]) is the array handed to it, by
    reference; [id] of a record is [record_id]. *)
Record InvoiceRecord : Type := {
  record_id : string;
  date : string;
  record_items : loc;
  totalItems : nat;
  status : Status
}.

Record AppSettings : Type := {
  googleSheetUrl : string;
  scriptUrl : string;
  autoExport : bool
}.

Inductive AppView : Type := DASHBOARD | SCAN | REVIEW | HISTORY | SETTINGS.

(** ** The response of the model, as [INVOICE_SCHEMA] declares it

    Only [description] is required by the schema; a numeric column that
    the model left out is [None] (the property is [undefined]). *)

Record RawItem : Type := {
  raw_description : option string;
  column1_inStock : option number;
  column2_par : option number;
  column3_order : option number;
  column4_price : option number
}.

(** What [JSON.parse] yields for a response: the object of the schema,
    whose two properties may be missing, or a bare array.  The service is
    called with [responseSchema]; values of other shapes are not modelled. *)
Inductive RawData : Type :=
  | RawArray (elements : list RawItem)
  | RawObject (vendorName : option string) (raw_items : option (list RawItem)).

(** ** Host functions *)

Class JSRuntime : Type := {
  (** the string case of [Number(value)] *)
  StringToNumber : string -> number;
  (** [s.toLowerCase()] *)
  toLowerCase : string -> string;
  (** [a.localeCompare(b)]: negative, zero or positive *)
  localeCompare : string -> string -> Z;
  (** [s.trim()] *)
  trim : string -> string;
  (** [JSON.parse(text)]; [None] when it throws *)
  JSON_parse : string -> option RawData
}.

(** ** Results of fallible code *)

Inductive Result (A : Type) : Type :=
  | Ok (value : A)
  | Throw (message : string).

Arguments Ok {A} value.
Arguments Throw {A} message.

(** What can go wrong below the gateway. *)
Inductive Cause : Type :=
  | NetworkFailure
  | SafetyRefusal
  | OtherFailure (detail : string).

(** Outcome of [ai.models.generateContent]: an exception, or a response
    whose [text] may be undefined. *)
Inductive GatewayOutcome : Type :=
  | CallThrew (cause : Cause)
  | Responded (text : option string).

(** ** [services/geminiService.ts] *)

Section Gemini.
Context `{JSRuntime}.

(** [Number(x)] on a column of the schema: a number, or [undefined]. *)
Definition NumberOf (x : option number) : number :=
  match x with
  | Some n => n
  | None => NaN
  end.

(** [item.description || "Unknown Item"]. *)
Definition descriptionOr (x : option string) (fallback : string) : string :=
  match x with
  | None | Some "" => fallback
  | Some s => s
  end.

(** The callback of [itemsList.map]: one row of the sheet to one
    [InvoiceItem].  [newId] is the text [`item-${Date.now()}-${uniqueId}`]
    that the runtime produced for this row. *)
Definition toInvoiceItem (vendorName newId : string) (item : RawItem) : InvoiceItem :=
  let inStock_ := or_zero (NumberOf (column1_inStock item)) in
  let extractedOrder := or_zero (NumberOf (column3_order item)) in
  let par_ := or_zero (NumberOf (column2_par item)) in
  let price_ := or_zero (NumberOf (column4_price item)) in
  let par_ :=
    if num_eqb par_ 0 then
      if num_gtb extractedOrder 0 then num_add inStock_ extractedOrder
      else if num_gtb inStock_ 0 then num_add inStock_ 5 else 10
    else par_ in
  let finalOrder := extractedOrder in
  let finalOrder :=
    if num_eqb finalOrder 0 && num_gtb par_ 0
    then Math_max 0 (num_sub par_ inStock_)
    else finalOrder in
  let finalDescription := descriptionOr (raw_description item) "Unknown Item" in
  {| id := newId;
     description := finalDescription;
     vendor := vendorName;
     inStock := JNum inStock_;
     par := JNum par_;
     order := JNum finalOrder;
     price := JNum price_ |}.

Definition EXTRACTION_FAILED : string :=
  "Failed to extract data from the invoice. Please try again.".

(** [Array.isArray(rawData) ? rawData : (rawData.items || [])]. *)
Definition itemsListOf (rawData : RawData) : list RawItem :=
  match rawData with
  | RawArray elements => elements
  | RawObject _ (Some l) => l
  | RawObject _ None => []
  end.

(** [rawData.vendorName ? rawData.vendorName.trim() : ""]. *)
Definition vendorNameOf (rawData : RawData) : string :=
  match rawData with
  | RawObject (Some v) _ => if String.eqb v "" then "" else trim v
  | _ => ""
  end.

(** [extractInvoiceData]: [generateContent] is the call to the model and
    [freshId i] the identifier drawn for row [i].  Everything that throws
    inside the [try] ends in the one [Error] of the [catch]. *)
Definition extractInvoiceData
    (generateContent : string -> string -> GatewayOutcome)
    (freshId : nat -> string)
    (base64Data mimeType : string) : Result (list InvoiceItem) :=
  match generateContent base64Data mimeType with
  | CallThrew _ => Throw EXTRACTION_FAILED
  | Responded None => Ok []
  | Responded (Some text) =>
      if String.eqb text "" then Ok []
      else
        match JSON_parse text with
        | None => Throw EXTRACTION_FAILED
        | Some rawData =>
            let itemsList := itemsListOf rawData in
            let vendorName := vendorNameOf rawData in
            Ok (imap (fun i item => toInvoiceItem vendorName (freshId i) item)
                     itemsList)
        end
  end.

End Gemini.

(** ** The store and the outside world

    [heap] holds the item arrays the handlers create; a location is an
    index into it.  [requests] logs every POST (url, body), [clipboard] is
    the last text written to the system clipboard, [alerts] the messages
    shown by [alert]. *)

Record World : Type := {
  heap : list (list InvoiceItem);
  clipboard : option string;
  requests : list (string * string);
  alerts : list string
}.

(** Outcome of [fetch] followed by [response.text()]. *)
Inductive FetchOutcome : Type :=
  | FetchThrew
  | FetchText (text : string).

(** Outcome of reading the chosen file. *)
Inductive FileOutcome : Type :=
  | NoFile
  | ReadFailed
  | FileData (base64Data mimeType : string).

(** What the environment answers during one handler. *)
Record Env : Type := {
  generateContent : string -> string -> GatewayOutcome;
  freshId : nat -> string;
  fetch : string -> string -> FetchOutcome;
  clipboardAllowed : bool;
  Date_now : string;
  Date_toISOString : string
}.

(** A computation that reads and updates the world. *)
Definition M (A : Type) : Type := World -> A * World.

#[global] Instance M_ret : MRet M := fun A (a : A) w => (a, w).

#[global] Instance M_bind : MBind M := fun A B (k : A -> M B) (m : M A) w =>
  let '(a, w') := m w in k a w'.

Definition set_heap (h : list (list InvoiceItem)) (w : World) : World :=
  {| heap := h; clipboard := clipboard w; requests := requests w; alerts := alerts w |}.

(** The array at a location (every location a handler holds is allocated). *)
Definition array_at (w : World) (r : loc) : list InvoiceItem :=
  default [] (heap w !! r).

(** A new array: an array literal, or the result of [map], [filter] or
    spread syntax. *)
Definition alloc (l : list InvoiceItem) : M loc := fun w =>
  (length (heap w), set_heap (heap w ++ [l]) w).

Definition contents (r : loc) : M (list InvoiceItem) := fun w =>
  (array_at w r, w).

(** [[...r]]. *)
Definition spread (r : loc) : M loc :=
  l ← contents r; alloc l.

(** [[...r, ...extra]]. *)
Definition spread_with (r : loc) (extra : list InvoiceItem) : M loc :=
  l ← contents r; alloc (l ++ extra).

Section Sorting.
Context {A : Type} (compareFn : A -> A -> Z).

(** Where [x] goes in a sorted array: before the first element it does not
    follow. *)
Fixpoint sort_insert (x : A) (l : list A) : list A :=
  match l with
  | [] => [x]
  | y :: l' => if compareFn x y <=? 0 then x :: y :: l' else y :: sort_insert x l'
  end.

(** The order [Array.prototype.sort] produces: the stable sort by
    [compareFn].  For a consistent comparator this is the order the language
    prescribes, whichever algorithm the engine runs. *)
Definition sorted_order (l : list A) : list A :=
  foldr sort_insert [] l.

End Sorting.

(** [r.sort(compareFn)]: sorts the array at [r] in place and returns [r]. *)
Definition array_sort (compareFn : InvoiceItem -> InvoiceItem -> Z) (r : loc) : M loc :=
  fun w => (r, set_heap (<[r := sorted_order compareFn (array_at w r)]> (heap w)) w).

(** [fetch(url, {method: 'POST', ..., body})] and [response.text()]. *)
Definition post (env : Env) (url body : string) : M FetchOutcome := fun w =>
  (fetch env url body,
   {| heap := heap w; clipboard := clipboard w;
      requests := requests w ++ [(url, body)]; alerts := alerts w |}).

(** [navigator.clipboard.writeText(text)]; [false] when it throws. *)
Definition writeText (env : Env) (text : string) : M bool := fun w =>
  if clipboardAllowed env
  then (true, {| heap := heap w; clipboard := Some text;
                 requests := requests w; alerts := alerts w |})
  else (false, w).

Definition alert (message : string) : M unit := fun w =>
  (tt, {| heap := heap w; clipboard := clipboard w;
          requests := requests w; alerts := alerts w ++ [message] |}).

(** ** [App.tsx]: coercions and serialisation *)

Section App.
Context `{JSRuntime}.

(** [Number(v)], also the coercion applied by the operands of [-]. *)
Definition ToNumber (v : jsval) : number :=
  match v with
  | JNum n => n
  | JStr s => StringToNumber s
  end.

(** The text a template literal inserts for [v]. *)
Definition ToString (v : jsval) : string :=
  match v with
  | JNum n => number_to_string n
  | JStr s => s
  end.

(** The object literal built by the [map] of both export paths. *)
Record ExportRow : Type := {
  row_inStock : jsval;
  row_par : jsval;
  row_order : jsval;
  row_description : string;
  row_vendor : string;
  row_price : jsval
}.

Definition toExportRow (i : InvoiceItem) : ExportRow :=
  {| row_inStock := inStock i;
     row_par := par i;
     row_order := order i;
     row_description := description i;
     row_vendor := vendor i;
     row_price := price i |}.

(** The comparator of every [sort] in the file. *)
Definition byDescription (a b : InvoiceItem) : Z :=
  localeCompare (toLowerCase (description a)) (toLowerCase (description b)).

Definition hex_digit (n : N) : string :=
  String.substring (N.to_nat n) 1 "0123456789abcdef".

(** One character inside a JSON string, as [JSON.stringify] quotes it. *)
Definition json_escape_char (c : ascii) : string :=
  let n := N_of_ascii c in
  if (n =? 34)%N then BACKSLASH +:+ DQUOTE
  else if (n =? 92)%N then BACKSLASH +:+ BACKSLASH
  else if (n =? 8)%N then BACKSLASH +:+ "b"
  else if (n =? 9)%N then BACKSLASH +:+ "t"
  else if (n =? 10)%N then BACKSLASH +:+ "n"
  else if (n =? 12)%N then BACKSLASH +:+ "f"
  else if (n =? 13)%N then BACKSLASH +:+ "r"
  else if (n <? 32)%N
    then BACKSLASH +:+ "u00" +:+ hex_digit (n / 16) +:+ hex_digit (n mod 16)
  else String c "".

Fixpoint json_escape (s : string) : string :=
  match s with
  | EmptyString => ""
  | String c s' => json_escape_char c +:+ json_escape s'
  end.

Definition json_string (s : string) : string :=
  DQUOTE +:+ json_escape s +:+ DQUOTE.

(** [JSON.stringify] of a field value; [NaN] is written [null]. *)
Definition json_value (v : jsval) : string :=
  match v with
  | JNum NaN => "null"
  | JNum n => number_to_string n
  | JStr s => json_string s
  end.

Definition json_member (key value : string) : string :=
  json_string key +:+ ":" +:+ value.

Definition json_row (r : ExportRow) : string :=
  "{" +:+ array_join ","
    [ json_member "inStock" (json_value (row_inStock r));
      json_member "par" (json_value (row_par r));
      json_member "order" (json_value (row_order r));
      json_member "description" (json_string (row_description r));
      json_member "vendor" (json_string (row_vendor r));
      json_member "price" (json_value (row_price r)) ] +:+ "}".

(** [JSON.stringify({ items: payload })]. *)
Definition webhookBody (payload : list ExportRow) : string :=
  "{" +:+ json_member "items"
    ("[" +:+ array_join "," (map json_row payload) +:+ "]") +:+ "}".

(** The template literal of [copyToClipboard]. *)
Definition tsvLine (i : ExportRow) : string :=
  row_vendor i +:+ TAB +:+ row_description i +:+ TAB +:+
  ToString (row_inStock i) +:+ TAB +:+ ToString (row_par i) +:+ TAB +:+
  ToString (row_order i) +:+ TAB +:+ ToString (row_price i).

Definition tsvContent (exportData : list ExportRow) : string :=
  array_join LF (map tsvLine exportData).

(** ** [App.tsx]: component state *)

Inductive ScanMode : Type := ScanNew | ScanAppend.

Record AppState : Type := {
  view : AppView;
  items : loc;
  isProcessing : bool;
  loadingStep : option string;
  history : list InvoiceRecord;
  toastMessage : option string;
  scanMode : ScanMode;
  showExportModal : bool;
  settings : AppSettings
}.

Definition setView (v : AppView) (s : AppState) : AppState :=
  {| view := v; items := items s; isProcessing := isProcessing s;
     loadingStep := loadingStep s; history := history s;
     toastMessage := toastMessage s; scanMode := scanMode s;
     showExportModal := showExportModal s; settings := settings s |}.

Definition setItems (r : loc) (s : AppState) : AppState :=
  {| view := view s; items := r; isProcessing := isProcessing s;
     loadingStep := loadingStep s; history := history s;
     toastMessage := toastMessage s; scanMode := scanMode s;
     showExportModal := showExportModal s; settings := settings s |}.

Definition setIsProcessing (b : bool) (s : AppState) : AppState :=
  {| view := view s; items := items s; isProcessing := b;
     loadingStep := loadingStep s; history := history s;
     toastMessage := toastMessage s; scanMode := scanMode s;
     showExportModal := showExportModal s; settings := settings s |}.

Definition setLoadingStep (step : option string) (s : AppState) : AppState :=
  {| view := view s; items := items s; isProcessing := isProcessing s;
     loadingStep := step; history := history s;
     toastMessage := toastMessage s; scanMode := scanMode s;
     showExportModal := showExportModal s; settings := settings s |}.

(** [setHistory(prev => f(prev))]. *)
Definition setHistory (f : list InvoiceRecord -> list InvoiceRecord)
    (s : AppState) : AppState :=
  {| view := view s; items := items s; isProcessing := isProcessing s;
     loadingStep := loadingStep s; history := f (history s);
     toastMessage := toastMessage s; scanMode := scanMode s;
     showExportModal := showExportModal s; settings := settings s |}.

Definition setToastMessage (message : string) (s : AppState) : AppState :=
  {| view := view s; items := items s; isProcessing := isProcessing s;
     loadingStep := loadingStep s; history := history s;
     toastMessage := Some message; scanMode := scanMode s;
     showExportModal := showExportModal s; settings := settings s |}.

Definition setShowExportModal (b : bool) (s : AppState) : AppState :=
  {| view := view s; items := items s; isProcessing := isProcessing s;
     loadingStep := loadingStep s; history := history s;
     toastMessage := toastMessage s; scanMode := scanMode s;
     showExportModal := b; settings := settings s |}.

(** ** [App.tsx]: editing the review table *)

(** [keyof InvoiceItem]. *)
Inductive Field : Type :=
  | FId | FDescription | FVendor | FInStock | FPar | FOrder | FPrice.

(** What a call site passes for a field: text for the three string fields,
    a number or the text of a number input for the four numeric ones. *)
Definition FieldValue (field : Field) : Type :=
  match field with
  | FId | FDescription | FVendor => string
  | FInStock | FPar | FOrder | FPrice => jsval
  end.

(** [{ ...item, [field]: value }]. *)
Definition withField (field : Field) : FieldValue field -> InvoiceItem -> InvoiceItem :=
  match field with
  | FId => fun value item =>
      {| id := value; description := description item; vendor := vendor item;
         inStock := inStock item; par := par item; order := order item;
         price := price item |}
  | FDescription => fun value item =>
      {| id := id item; description := value; vendor := vendor item;
         inStock := inStock item; par := par item; order := order item;
         price := price item |}
  | FVendor => fun value item =>
      {| id := id item; description := description item; vendor := value;
         inStock := inStock item; par := par item; order := order item;
         price := price item |}
  | FInStock => fun value item =>
      {| id := id item; description := description item; vendor := vendor item;
         inStock := value; par := par item; order := order item;
         price := price item |}
  | FPar => fun value item =>
      {| id := id item; description := description item; vendor := vendor item;
         inStock := inStock item; par := value; order := order item;
         price := price item |}
  | FOrder => fun value item =>
      {| id := id item; description := description item; vendor := vendor item;
         inStock := inStock item; par := par item; order := value;
         price := price item |}
  | FPrice => fun value item =>
      {| id := id item; description := description item; vendor := vendor item;
         inStock := inStock item; par := par item; order := order item;
         price := value |}
  end.

(** [Number(value)]. *)
Definition NumberOfValue (field : Field) : FieldValue field -> number :=
  match field with
  | FId | FDescription | FVendor => StringToNumber
  | FInStock | FPar | FOrder | FPrice => ToNumber
  end.

Definition isInStock (field : Field) : bool :=
  match field with FInStock => true | _ => false end.

Definition isPar (field : Field) : bool :=
  match field with FPar => true | _ => false end.

(** The callback of [prev.map] in [updateItem]. *)
Definition updateOne (id_ : string) (field : Field) (value : FieldValue field)
    (item : InvoiceItem) : InvoiceItem :=
  if negb (String.eqb (id item) id_) then item
  else
    let updated := withField field value item in
    if isInStock field || isPar field then
      (* [par - inStock] coerces the stored operand, as [Number] does *)
      let inStock_ :=
        if isInStock field then NumberOfValue field value else ToNumber (inStock item) in
      let par_ :=
        if isPar field then NumberOfValue field value else ToNumber (par item) in
      withField FOrder (JNum (Math_max 0 (num_sub par_ inStock_))) updated
    else updated.

(** [setItems(prev => prev.map(...))]: the edited collection is a new
    array. *)
Definition updateItem (id_ : string) (field : Field) (value : FieldValue field)
    (s : AppState) : M AppState :=
  prev ← contents (items s);
  next ← alloc (map (updateOne id_ field value) prev);
  mret (setItems next s).

Definition deleteItem (id_ : string) (s : AppState) : M AppState :=
  prev ← contents (items s);
  next ← alloc (filter (fun i => id i ≠ id_) prev);
  mret (setItems next s).

Definition addItem (env : Env) (s : AppState) : M AppState :=
  let newItem :=
    {| id := "manual-" +:+ Date_now env; description := ""; vendor := "";
       inStock := JNum 0; par := JNum 10; order := JNum 10; price := JNum 0 |} in
  next ← spread_with (items s) [newItem];
  mret (setItems next s).

Definition sortItems (s : AppState) : M AppState :=
  copy ← spread (items s);
  sorted ← array_sort byDescription copy;
  mret (setToastMessage "Sorted by Description" (setItems sorted s)).

(** ** [App.tsx]: the export sink *)

(** [uploadToScript]: the array passed in is copied, the copy is sorted in
    place and sent; the answer counts as success when it contains
    "Success". *)
Definition uploadToScript (env : Env) (dataToUpload : loc)
    (currentScriptUrl : string) : M bool :=
  if String.eqb currentScriptUrl "" then mret false
  else
    copy ← spread dataToUpload;
    sortedData ← array_sort byDescription copy;
    sortedItems ← contents sortedData;
    let payload := map toExportRow sortedItems in
    response ← post env currentScriptUrl (webhookBody payload);
    match response with
    | FetchText text => if includes text "Success" then mret true else mret false
    | FetchThrew => mret false
    end.

Definition getSortedExportData (s : AppState) : M (list ExportRow) :=
  copy ← spread (items s);
  sorted ← array_sort byDescription copy;
  sortedItems ← contents sorted;
  mret (map toExportRow sortedItems).

Definition copyToClipboard (env : Env) (s : AppState) : M (bool * AppState) :=
  exportData ← getSortedExportData s;
  written ← writeText env (tsvContent exportData);
  match written with
  | true => mret (true, setToastMessage "Data copied! (Sorted by name)" s)
  | false =>
      mret (false,
            setToastMessage "Clipboard access denied. Please allow permissions." s)
  end.

(** Step 3 of [handleManualExport]: [await copyToClipboard();
    setShowExportModal(true)]. *)
Definition clipboardFallback (env : Env) (s : AppState) : M AppState :=
  copied ← copyToClipboard env s;
  mret (setShowExportModal true (snd copied)).

(** [handleManualExport].  The timer that returns to the dashboard one
    second after a successful upload is taken with the handler. *)
Definition handleManualExport (env : Env) (s : AppState) : M AppState :=
  current ← contents (items s);
  let newRecord :=
    {| record_id := Date_now env;
       date := Date_toISOString env;
       record_items := items s;
       totalItems := length current;
       status := Uploaded |} in
  let s := setHistory (fun prev => newRecord :: prev) s in
  let fallback := clipboardFallback env in
  if negb (String.eqb (scriptUrl (settings s)) "") then
    let s := setIsProcessing true (setLoadingStep (Some "uploading") s) in
    success ← uploadToScript env (items s) (scriptUrl (settings s));
    let s := setLoadingStep None (setIsProcessing false s) in
    match success with
    | true =>
        mret (setView DASHBOARD (setToastMessage "Sent to Sheet! (Sorted by name)" s))
    | false =>
        fallback (setToastMessage "Auto-upload failed. Switching to manual copy." s)
    end
  else fallback s.

(** [extractedItems[0]?.vendor || "Unknown Vendor"]. *)
Definition firstVendor (extractedItems : list InvoiceItem) : string :=
  match extractedItems with
  | i :: _ => if String.eqb (vendor i) "" then "Unknown Vendor" else vendor i
  | [] => "Unknown Vendor"
  end.

(** [handleFileUpload], from the chosen file to the review table. *)
Definition handleFileUpload (env : Env) (file : FileOutcome) (s : AppState) : M AppState :=
  match file with
  | NoFile => mret s
  | ReadFailed =>
      let s := setView SCAN (setLoadingStep (Some "analyzing") (setIsProcessing true s)) in
      _ ← alert "Error reading file.";
      mret (setLoadingStep None (setIsProcessing false s))
  | FileData base64Data mimeType =>
      let s := setView SCAN (setLoadingStep (Some "analyzing") (setIsProcessing true s)) in
      s ← match extractInvoiceData (generateContent env) (freshId env) base64Data mimeType with
          | Ok extracted =>
              extractedItems ← alloc extracted;
              let successMessage :=
                "Scanned " +:+ pretty (length extracted) +:+ " items for "
                  +:+ firstVendor extracted in
              s ← (if autoExport (settings s) && negb (String.eqb (scriptUrl (settings s)) "")
                   then
                     let s := setLoadingStep (Some "uploading") s in
                     success ← uploadToScript env extractedItems (scriptUrl (settings s));
                     match success with
                     | true => mret (setToastMessage "Auto-Export Successful! ✅" s)
                     | false =>
                         mret (setShowExportModal true
                                 (setToastMessage "Auto-Export Failed. Check settings." s))
                     end
                   else if autoExport (settings s)
                   then mret (setToastMessage
                                "Skipped Auto-Export: Script URL not set in Settings" s)
                   else mret (setToastMessage successMessage s));
              next ← match scanMode s with
                     | ScanAppend => spread_with (items s) extracted
                     | ScanNew => mret extractedItems
                     end;
              mret (setView REVIEW (setItems next s))
          | Throw _ =>
              _ ← alert "Failed to extract data. Use a clearer photo or try a smaller file.";
              match scanMode s with
              | ScanAppend => mret (setView REVIEW s)
              | ScanNew => mret (setView DASHBOARD s)
              end
          end;
      mret (setLoadingStep None (setIsProcessing false s))
  end.

(** Reopening a record of the history: [setItems(record.items)]. *)
Definition openRecord (record : InvoiceRecord) (s : AppState) : AppState :=
  setView REVIEW (setItems (record_items record) s).

End App.

(** ** An ASCII runtime

    A runtime for running the handlers on concrete inputs: byte-wise
    collation, ASCII lower-casing and trimming, decimal literals, and a
    [JSON.parse] that knows the documents of a table. *)

Module Ascii_runtime.

Definition lower_char (c : ascii) : ascii :=
  let n := N_of_ascii c in
  if ((65 <=? n) && (n <=? 90))%N then ascii_of_N (n + 32) else c.

Fixpoint lower (s : string) : string :=
  match s with
  | EmptyString => ""
  | String c s' => String (lower_char c) (lower s')
  end.

Definition is_space (c : ascii) : bool :=
  let n := N_of_ascii c in
  ((n =? 32) || ((9 <=? n) && (n <=? 13)))%N.

Fixpoint trim_start (s : string) : string :=
  match s with
  | String c s' => if is_space c then trim_start s' else s
  | EmptyString => ""
  end.

Definition trim_both (s : string) : string :=
  String.rev (trim_start (String.rev (trim_start s))).

Definition compare_bytes (a b : string) : Z :=
  match String.compare a b with
  | Lt => -1
  | Eq => 0
  | Gt => 1
  end.

Definition digit_of (c : ascii) : option Z :=
  let n := N_of_ascii c in
  if ((48 <=? n) && (n <=? 57))%N then Some (Z.of_N n - 48) else None.

(** Digits with at most one point: mantissa read so far, digits after the
    point, whether the point was seen, whether a digit was seen. *)
Fixpoint read_digits (s : string) (m : Z) (e : nat) (point seen : bool) : number :=
  match s with
  | EmptyString => if seen then Dec m e else NaN
  | String c s' =>
      match digit_of c with
      | Some d => read_digits s' (10 * m + d) (if point then S e else e) point true
      | None =>
          if Ascii.eqb c "."%char && negb point then read_digits s' m e true seen
          else NaN
      end
  end.

Definition negate (a : number) : number :=
  match a with
  | NaN => NaN
  | Dec m e => Dec (- m) e
  end.

(** Decimal literals with an optional sign; the empty text is [0]. *)
Definition parse_decimal (s : string) : number :=
  match trim_both s with
  | EmptyString => 0
  | String c rest =>
      if Ascii.eqb c "-"%char then negate (read_digits rest 0 0 false false)
      else if Ascii.eqb c "+"%char then read_digits rest 0 0 false false
      else read_digits (String c rest) 0 0 false false
  end.

Fixpoint parse_table (documents : list (string * RawData)) (text : string)
    : option RawData :=
  match documents with
  | [] => None
  | (t, d) :: rest => if String.eqb t text then Some d else parse_table rest text
  end.

Definition runtime (documents : list (string * RawData)) : JSRuntime :=
  {| StringToNumber := parse_decimal;
     toLowerCase := lower;
     localeCompare := compare_bytes;
     trim := trim_both;
     JSON_parse := parse_table documents |}.

End Ascii_runtime.

(** ** Quantities read off a row

    The locals [inStock], [par], [extractedOrder] and [price] of the
    callback, before [par] is resolved. *)

Definition rawInStock (row : RawItem) : number := or_zero (NumberOf (column1_inStock row)).
Definition rawPar (row : RawItem) : number := or_zero (NumberOf (column2_par row)).
Definition rawOrder (row : RawItem) : number := or_zero (NumberOf (column3_order row)).
Definition rawPrice (row : RawItem) : number := or_zero (NumberOf (column4_price row)).

(** The par rule in the words of the specification: the first test is
    [parRaw > 0]. *)
Definition par_rule_as_specified (row : RawItem) (item : InvoiceItem) : Prop :=
  (num_gtb (rawPar row) 0 = true -> par item = JNum (rawPar row)) /\
  (num_gtb (rawPar row) 0 = false -> num_gtb (rawOrder row) 0 = true ->
     par item = JNum (num_add (rawInStock row) (rawOrder row))) /\
  (num_gtb (rawPar row) 0 = false -> num_gtb (rawOrder row) 0 = false ->
     (num_gtb (rawInStock row) 0 = true -> par item = JNum (num_add (rawInStock row) 5)) /\
     (num_eqb (rawInStock row) 0 = true -> par item = JNum 10)).

(** The order rule in the words of the specification: without a written
    order the formula always applies. *)
Definition order_rule_as_specified (row : RawItem) (item : InvoiceItem) : Prop :=
  (num_gtb (rawOrder row) 0 = true -> order item = JNum (rawOrder row)) /\
  (num_eqb (rawOrder row) 0 = true ->
     exists p, par item = JNum p /\
       order item = JNum (Math_max 0 (num_sub p (rawInStock row)))).

(** Rows used as examples. *)
Definition row_of (stock parv orderv : Z) : RawItem :=
  {| raw_description := Some "Rice";
     column1_inStock := Some (num_of_Z stock);
     column2_par := Some (num_of_Z parv);
     column3_order := Some (num_of_Z orderv);
     column4_price := None |}.

(** ** Reading the outcome of a handler *)

(** The collection shown in the review table. *)
Definition live (r : AppState * World) : list InvoiceItem :=
  array_at (snd r) (items (fst r)).

(** [item[field]]. *)
Definition getField (field : Field) : InvoiceItem -> FieldValue field :=
  match field with
  | FId => id
  | FDescription => description
  | FVendor => vendor
  | FInStock => inStock
  | FPar => par
  | FOrder => order
  | FPrice => price
  end.

(** The rows both export paths send for the array at [r]. *)
Definition exported `{JSRuntime} (w : World) (r : loc) : list ExportRow :=
  map toExportRow (sorted_order byDescription (array_at w r)).

(** A comparator under which a sorted order exists: any two elements are
    comparable and "does not follow" is transitive. *)
Definition total_preorder {A : Type} (compareFn : A -> A -> Z) : Prop :=
  (forall a b, compareFn a b <= 0 \/ compareFn b a <= 0) /\
  (forall a b c, compareFn a b <= 0 -> compareFn b c <= 0 -> compareFn a c <= 0).

(** [a] does not follow [b] in the case-insensitive order of descriptions. *)
Definition description_le `{JSRuntime} (a b : InvoiceItem) : Prop :=
  localeCompare (toLowerCase (description a)) (toLowerCase (description b)) <= 0.

(** [text] contains [part]. *)
Definition contains (text part : string) : Prop :=
  exists pre post, text = pre +:+ part +:+ post.

(** Every array of the store [w] is still there, unchanged, in [w']. *)
Definition preserves (w w' : World) : Prop :=
  forall (r : loc) (l : list InvoiceItem), heap w !! r = Some l -> heap w' !! r = Some l.

(** The location holds an array of the store. *)
Definition allocated (w : World) (r : loc) : Prop := (r < length (heap w))%nat.

(** The record [handleManualExport] builds. *)
Definition exportRecord (env : Env) (s : AppState) (w : World) : InvoiceRecord :=
  {| record_id := Date_now env;
     date := Date_toISOString env;
     record_items := items s;
     totalItems := length (live (s, w));
     status := Uploaded |}.

(** The edits of the review table, as data. *)
Inductive Edit : Type :=
  | EditUpdate (id_ : string) (field : Field) (value : FieldValue field)
  | EditDelete (id_ : string)
  | EditAdd
  | EditSort.

Definition applyEdit `{JSRuntime} (env : Env) (e : Edit) (s : AppState) : M AppState :=
  match e with
  | EditUpdate id_ field value => updateItem id_ field value s
  | EditDelete id_ => deleteItem id_ s
  | EditAdd => addItem env s
  | EditSort => sortItems s
  end.

Fixpoint applyEdits `{JSRuntime} (env : Env) (es : list Edit) (r : AppState * World)
    : AppState * World :=
  match es with
  | [] => r
  | e :: es' => applyEdits env es' (applyEdit env e (fst r) (snd r))
  end.

(** The export-to-history rule in the words of the specification: the
    export appended one record with status [Uploaded]. *)
Definition appended_one_record (before after : AppState) : Prop :=
  exists record, history after = record :: history before /\ status record = Uploaded.

(** ** Concrete inputs *)

Module Sample.

Definition item (id_ description_ : string) (stock parv orderv : Z) : InvoiceItem :=
  {| id := id_; description := description_; vendor := "V";
     inStock := JNum stock; par := JNum parv; order := JNum orderv;
     price := JNum (Dec 25 1) |}.

(** The item of the export example: price 2.5. *)
Definition item_D : InvoiceItem := item "item-D" "D" 1 5 4.

Definition table : list InvoiceItem :=
  [ item "a" "banana" 2 6 4; item "b" "Apple" 1 5 4; item "c" "apple" 0 10 10 ].

Definition world (l : list InvoiceItem) : World :=
  {| heap := [l]; clipboard := None; requests := []; alerts := [] |}.

Definition state (url : string) (auto : bool) : AppState :=
  {| view := REVIEW; items := 0%nat; isProcessing := false; loadingStep := None;
     history := []; toastMessage := None; scanMode := ScanNew;
     showExportModal := false;
     settings := {| googleSheetUrl := ""; scriptUrl := url; autoExport := auto |} |}.

Definition rice_text : string := "rice sheet".

Definition rice_document : RawData :=
  RawObject (Some "Asian Vegetables") (Some [row_of 3 0 0]).

Definition rt : JSRuntime := Ascii_runtime.runtime [(rice_text, rice_document)].

(** An environment whose webhook answers [answer] and whose model returns
    [outcome]. *)
Definition env (answer : FetchOutcome) (allowed : bool) (outcome : GatewayOutcome) : Env :=
  {| generateContent := fun _ _ => outcome;
     freshId := fun i => "item-" +:+ pretty i;
     fetch := fun _ _ => answer;
     clipboardAllowed := allowed;
     Date_now := "1700000000000";
     Date_toISOString := "2023-11-14T22:13:20.000Z" |}.

End Sample.

(** ** [App.tsx]: further handlers *)

Section More_handlers.
Context `{JSRuntime}.

(** [a + b] on field values: a sum of two numbers, otherwise the
    concatenation of the two texts. *)
Definition js_plus (a b : jsval) : jsval :=
  match a, b with
  | JNum x, JNum y => JNum (num_add x y)
  | _, _ => JStr (ToString a +:+ ToString b)
  end.

(** [items.reduce((sum, item) => sum + item.order, 0)] of [renderReview]. *)
Definition totalOrder (l : list InvoiceItem) : jsval :=
  fold_left (fun sum item => js_plus sum (order item)) l (JNum 0).

(** The item [addItem] appends. *)
Definition manualItem (env : Env) : InvoiceItem :=
  {| id := "manual-" +:+ Date_now env; description := ""; vendor := "";
     inStock := JNum 0; par := JNum 10; order := JNum 10; price := JNum 0 |}.

Definition setScanMode (mode : ScanMode) (s : AppState) : AppState :=
  {| view := view s; items := items s; isProcessing := isProcessing s;
     loadingStep := loadingStep s; history := history s;
     toastMessage := toastMessage s; scanMode := mode;
     showExportModal := showExportModal s; settings := settings s |}.

(** [triggerScan]: the mode is stored; the click on the hidden file input
    leads to [handleFileUpload]. *)
Definition triggerScan (mode : ScanMode) (s : AppState) : AppState :=
  setScanMode mode s.

(** The array literal of the "Test Connection" button. *)
Definition testItem : InvoiceItem :=
  {| id := "test"; description := "Connection Test"; vendor := "Test";
     inStock := JNum 1; par := JNum 1; order := JNum 0; price := JNum 0 |}.

(** The click handler of the "Test Connection" button. *)
Definition testConnection (env : Env) (s : AppState) : M AppState :=
  if String.eqb (scriptUrl (settings s)) "" then
    mret (setToastMessage "Paste a URL first!" s)
  else
    let s := setToastMessage "Testing connection..." s in
    data ← alloc [testItem];
    success ← uploadToScript env data (scriptUrl (settings s));
    match success with
    | true => mret (setToastMessage "Connection Successful! ✅" s)
    | false =>
        mret (setToastMessage
                "Connection Failed. Check 'Who has access' is set to 'Anyone'" s)
    end.

(** The values a call site of the review table passes: [order] receives
    [Number(e.target.value)], and no input edits [id]. *)
Definition from_table (e : Edit) : Prop :=
  match e with
  | EditUpdate _ FId _ => False
  | EditUpdate _ FOrder value => exists n, value = JNum n
  | _ => True
  end.

(** The [order] of the item is a number, not a text. *)
Definition order_is_number (item : InvoiceItem) : Prop :=
  exists n, order item = JNum n.

End More_handlers.

(** ** [App.tsx]: settings read at start *)

Definition DEFAULT_SHEET_URL : string :=
  "https://docs.google.com/spreadsheets/d/1c9qt5RejeAZ_tn-gXhFaDwVSIgZdmgRPojKD1LqhRYc/edit?gid=0#gid=0".

(** What [JSON.parse] finds under the settings key: the two properties the
    code reads, each possibly missing. *)
Record StoredSettings : Type := {
  stored_scriptUrl : option string;
  stored_autoExport : option bool
}.

Definition defaultSettings : AppSettings :=
  {| googleSheetUrl := DEFAULT_SHEET_URL; scriptUrl := ""; autoExport := true |}.

(** The settings half of the effect that runs on mount.  [savedSettings]
    is [localStorage.getItem(SETTINGS_KEY)]; [parse] is [JSON.parse]
    followed by the two property reads, [None] when either throws. *)
Definition loadSettings (parse : string -> option StoredSettings)
    (savedSettings : option string) : AppSettings :=
  match savedSettings with
  | None => defaultSettings
  | Some text =>
      if String.eqb text "" then defaultSettings
      else
        match parse text with
        | Some parsed =>
            {| scriptUrl := default "" (stored_scriptUrl parsed);
               googleSheetUrl := DEFAULT_SHEET_URL;
               autoExport := default true (stored_autoExport parsed) |}
        | None => defaultSettings
        end
  end.

(** [x] and [y] tie under the comparator: neither follows the other. *)
Definition ties {A : Type} (compareFn : A -> A -> Z) (x y : A) : bool :=
  (compareFn x y <=? 0) && (compareFn y x <=? 0).

(** ** Predicates on numbers *)



(** * Properties *)

(** ** Numbers *)

Example number_to_string_fraction : number_to_string (Dec 250 2) = "2.5".
Proof. reflexivity. Qed.

Example number_to_string_negative : number_to_string (Dec (-5) 2) = "-0.05".
Proof. reflexivity. Qed.

Example number_to_string_integer : number_to_string 120 = "120".
Proof. reflexivity. Qed.

Example num_eqb_scales : num_eqb (Dec 250 2) (Dec 25 1) = true.
Proof. reflexivity. Qed.

Example Math_max_clamps : Math_max 0 (num_sub 3 8) = 0.
Proof. reflexivity. Qed.

Example Math_max_NaN : Math_max 0 (num_sub NaN 8) = NaN.
Proof. reflexivity. Qed.

Example or_zero_NaN : or_zero NaN = 0.
Proof. reflexivity. Qed.

Lemma num_gtb_not_eqb (a b : number) : num_gtb a b = true -> num_eqb a b = false.
Proof.
  unfold num_gtb, num_eqb. destruct (num_compare a b) as [[ | | ]|]; congruence.
Qed.

Lemma num_eqb_not_gtb (a b : number) : num_eqb a b = true -> num_gtb a b = false.
Proof.
  unfold num_gtb, num_eqb. destruct (num_compare a b) as [[ | | ]|]; congruence.
Qed.

(** A value left by [|| 0] that equals zero is the literal [0]. *)
Lemma or_zero_eqb_0 (a : number) : num_eqb (or_zero a) 0 = true -> or_zero a = 0.
Proof.
  unfold or_zero. destruct a as [|m e]; cbn; [reflexivity|].
  destruct (Z.eqb_spec m 0) as [->|Hm]; cbn; [reflexivity|].
  unfold num_eqb, num_compare, num_of_Z.
  destruct (Z.compare_spec (m * pow10 0) (0 * pow10 e)) as [Heq| |];
    try discriminate.
  unfold pow10 in Heq. cbn in Heq. lia.
Qed.

(** ** Normalisation *)

Lemma toInvoiceItem_par (vendorName newId : string) (row : RawItem) :
  par (toInvoiceItem vendorName newId row) =
  JNum (if num_eqb (rawPar row) 0
        then if num_gtb (rawOrder row) 0
             then num_add (rawInStock row) (rawOrder row)
             else if num_gtb (rawInStock row) 0
                  then num_add (rawInStock row) 5 else 10
        else rawPar row).
Proof. reflexivity. Qed.

Lemma toInvoiceItem_order (vendorName newId : string) (row : RawItem) :
  forall p, par (toInvoiceItem vendorName newId row) = JNum p ->
  order (toInvoiceItem vendorName newId row) =
  JNum (if num_eqb (rawOrder row) 0 && num_gtb p 0
        then Math_max 0 (num_sub p (rawInStock row))
        else rawOrder row).
Proof. intros p Hp. rewrite toInvoiceItem_par in Hp. injection Hp as <-. reflexivity. Qed.

(** C1, as specified, fails: a negative par on the sheet is not [0], so the
    code keeps it, where the specification derives par from stock and
    order.  Row: in stock 3, par -1, order 2. *)
Lemma par_rule_as_specified_fails :
  ~ par_rule_as_specified (row_of 3 (-1) 2) (toInvoiceItem "V" "item-0" (row_of 3 (-1) 2)).
Proof.
  intros (_ & Horder & _).
  specialize (Horder eq_refl eq_refl). vm_compute in Horder. discriminate.
Qed.

(** C1 (amended): the test on par is [par === 0].  A par that is not zero
    is kept, in particular every positive one; a zero or missing par
    becomes [inStock + orderRaw] when an order is written, else
    [inStock + 5] for a positive stock and [10] otherwise.  The row with
    stock 3 and nothing else written gets par 8 and order 5. *)
Theorem par_resolution (vendorName newId : string) (row : RawItem) :
  let item := toInvoiceItem vendorName newId row in
  (num_gtb (rawPar row) 0 = true -> par item = JNum (rawPar row)) /\
  (num_eqb (rawPar row) 0 = false -> par item = JNum (rawPar row)) /\
  (num_eqb (rawPar row) 0 = true -> num_gtb (rawOrder row) 0 = true ->
     par item = JNum (num_add (rawInStock row) (rawOrder row))) /\
  (num_eqb (rawPar row) 0 = true -> num_gtb (rawOrder row) 0 = false ->
     (num_gtb (rawInStock row) 0 = true -> par item = JNum (num_add (rawInStock row) 5)) /\
     (num_gtb (rawInStock row) 0 = false -> par item = JNum 10) /\
     (num_eqb (rawInStock row) 0 = true -> par item = JNum 10)) /\
  (par (toInvoiceItem vendorName newId (row_of 3 0 0)) = JNum 8 /\
   order (toInvoiceItem vendorName newId (row_of 3 0 0)) = JNum 5 /\
   inStock (toInvoiceItem vendorName newId (row_of 3 0 0)) = JNum 3).
Proof.
  intros item. subst item. rewrite toInvoiceItem_par.
  split; [|split; [|split; [|split]]].
  - intros Hgt. now rewrite (num_gtb_not_eqb _ _ Hgt).
  - now intros ->.
  - now intros -> ->.
  - intros -> ->. split; [|split].
    + now intros ->.
    + now intros ->.
    + intros Hz. now rewrite (num_eqb_not_gtb _ _ Hz).
  - repeat split.
Qed.

Lemma par_resolution_witness :
  num_eqb (rawPar (row_of 3 0 0)) 0 = true /\
  num_gtb (rawOrder (row_of 3 0 0)) 0 = false /\
  num_gtb (rawInStock (row_of 3 0 0)) 0 = true /\
  par (toInvoiceItem "V" "item-0" (row_of 3 0 0)) = JNum (num_add (rawInStock (row_of 3 0 0)) 5).
Proof.
  split; [reflexivity|split; [reflexivity|split; [reflexivity|]]].
  apply (par_resolution "V" "item-0" (row_of 3 0 0)); reflexivity.
Defined.

(** C2, as specified, fails: with no order written the code applies the
    formula only when the resolved par is positive.  Row: in stock -5,
    par -1, no order; the formula gives 4, the code leaves 0. *)
Lemma order_rule_as_specified_fails :
  ~ order_rule_as_specified (row_of (-5) (-1) 0)
      (toInvoiceItem "V" "item-0" (row_of (-5) (-1) 0)).
Proof.
  intros (_ & Hzero).
  destruct (Hzero eq_refl) as (p & Hp & Ho).
  vm_compute in Hp. injection Hp as <-.
  vm_compute in Ho. discriminate.
Qed.

(** C2 (amended): a written order ([orderRaw > 0]) is kept verbatim, also
    when it differs from [par - inStock] (stock 3, par 10, order 2: the
    order stays 2, not 7); with no order written ([orderRaw = 0]) the
    order is [max(0, par - inStock)] for the resolved par when that par is
    positive, and stays 0 when it is not. *)
Theorem order_resolution (vendorName newId : string) (row : RawItem) :
  let item := toInvoiceItem vendorName newId row in
  exists p, par item = JNum p /\
  (num_gtb (rawOrder row) 0 = true -> order item = JNum (rawOrder row)) /\
  (num_eqb (rawOrder row) 0 = true -> num_gtb p 0 = true ->
     order item = JNum (Math_max 0 (num_sub p (rawInStock row)))) /\
  (num_eqb (rawOrder row) 0 = true -> num_gtb p 0 = false -> order item = JNum 0) /\
  (num_eqb (rawOrder row) 0 = true -> num_eqb (rawPar row) 0 = true ->
     num_gtb p 0 = true) /\
  (order (toInvoiceItem vendorName newId (row_of 3 10 2)) = JNum 2 /\
   par (toInvoiceItem vendorName newId (row_of 3 10 2)) = JNum 10 /\
   num_sub 10 3 = 7).
Proof.
  intros item. subst item.
  eexists. split; [apply toInvoiceItem_par|].
  rewrite (toInvoiceItem_order _ _ _ _ (toInvoiceItem_par _ _ _)).
  split; [|split; [|split; [|split]]]; [| | | |repeat split].
  - intros Hgt. now rewrite (num_gtb_not_eqb _ _ Hgt).
  - now intros -> ->.
  - intros Hz ->. rewrite Hz. cbn. f_equal. now apply or_zero_eqb_0.
  - intros Hz ->. rewrite (num_eqb_not_gtb _ _ Hz).
    unfold rawInStock, or_zero.
    destruct (NumberOf (column1_inStock row)) as [|m e]; cbn; [reflexivity|].
    destruct (Z.eqb_spec m 0) as [->|Hm]; cbn; [reflexivity|].
    unfold num_gtb, num_add, num_lift2, num_compare, num_of_Z.
    rewrite Nat.max_0_r, Nat.sub_diag, Nat.sub_0_r.
    destruct (Z.compare_spec (m * pow10 0) (0 * pow10 e)) as [|Hlt|Hgt];
      [reflexivity|reflexivity|].
    destruct (Z.compare_spec ((m * pow10 0 + 5 * pow10 e) * pow10 0) (0 * pow10 e))
      as [Heq|Hlt|]; [| |reflexivity].
    + assert (0 < pow10 e) by (unfold pow10; lia). unfold pow10 in *. cbn in *. lia.
    + assert (0 < pow10 e) by (unfold pow10; lia). unfold pow10 in *. cbn in *. lia.
Qed.

Lemma order_resolution_witness :
  num_gtb (rawOrder (row_of 3 10 2)) 0 = true /\
  exists p, par (toInvoiceItem "V" "item-0" (row_of 3 10 2)) = JNum p /\
            order (toInvoiceItem "V" "item-0" (row_of 3 10 2)) = JNum (rawOrder (row_of 3 10 2)).
Proof.
  split; [reflexivity|].
  destruct (order_resolution "V" "item-0" (row_of 3 10 2)) as (p & Hp & Hkeep & _).
  exists p. split; [exact Hp|]. apply Hkeep. reflexivity.
Defined.

(** ** The store *)

Lemma array_at_alloc (w : World) (l : list InvoiceItem) :
  array_at (snd (alloc l w)) (fst (alloc l w)) = l.
Proof.
  unfold array_at, alloc. cbn.
  rewrite lookup_app_r by lia. now rewrite Nat.sub_diag.
Qed.

Lemma array_at_old (w : World) (l : list InvoiceItem) (r : loc) :
  (r < length (heap w))%nat -> array_at (snd (alloc l w)) r = array_at w r.
Proof.
  intros Hr. unfold array_at, alloc. cbn. now rewrite lookup_app_l.
Qed.

(** ** Editing *)

Section Editing.
Context `{JSRuntime}.

Lemma updateItem_live (id_ : string) (field : Field) (value : FieldValue field)
    (s : AppState) (w : World) :
  live (updateItem id_ field value s w) = map (updateOne id_ field value) (live (s, w)).
Proof.
  unfold live, updateItem, mbind, M_bind, contents, mret, M_ret. cbn.
  apply (array_at_alloc w).
Qed.

Lemma updateOne_other (id_ : string) (field : Field) (value : FieldValue field)
    (item : InvoiceItem) :
  id item <> id_ -> updateOne id_ field value item = item.
Proof.
  intros Hne. unfold updateOne.
  destruct (String.eqb_spec (id item) id_); [contradiction|reflexivity].
Qed.

Lemma updateOne_id (id_ : string) (field : Field) (value : FieldValue field)
    (item : InvoiceItem) :
  field <> FId -> id (updateOne id_ field value item) = id item.
Proof.
  intros Hf. unfold updateOne.
  destruct (String.eqb (id item) id_); [|reflexivity].
  destruct field; try contradiction; reflexivity.
Qed.

(** Fields other than the edited one and [order] are copied. *)
Lemma updateOne_frame (id_ : string) (field : Field) (value : FieldValue field)
    (item : InvoiceItem) (other : Field) :
  other <> field -> other <> FOrder ->
  getField other (updateOne id_ field value item) = getField other item.
Proof.
  intros Hf Ho. unfold updateOne.
  destruct (String.eqb (id item) id_); [|reflexivity].
  destruct field, other; try contradiction; reflexivity.
Qed.

Lemma updateOne_twice (id_ : string) (field : Field) (value : FieldValue field)
    (item : InvoiceItem) :
  field = FInStock \/ field = FPar ->
  updateOne id_ field value (updateOne id_ field value item)
  = updateOne id_ field value item.
Proof.
  intros [-> | ->]; unfold updateOne;
    destruct (String.eqb (id item) id_) eqn:Hid; cbn; rewrite Hid; reflexivity.
Qed.

End Editing.

Section Review_state.
Context `{JSRuntime}.

(** C3: on the item with the given id, editing [inStock] or [par] stores
    the value and sets [order] to [Math.max(0, par - inStock)], computed
    from the new value of the edited field and the stored value of the
    other; editing [order] stores the value and leaves [par] and [inStock]
    alone; an [inStock] or [par] edit applied twice leaves the collection
    that one application leaves. *)
Theorem update_edit_rule (id_ : string) (s : AppState) (w : World)
    (i : nat) (item : InvoiceItem) :
  live (s, w) !! i = Some item ->
  id item = id_ ->
  (forall value : jsval,
      exists item', live (updateItem id_ FInStock value s w) !! i = Some item' /\
        order item' = JNum (Math_max 0 (num_sub (ToNumber (par item)) (ToNumber value))) /\
        inStock item' = value /\ par item' = par item) /\
  (forall value : jsval,
      exists item', live (updateItem id_ FPar value s w) !! i = Some item' /\
        order item' = JNum (Math_max 0 (num_sub (ToNumber value) (ToNumber (inStock item)))) /\
        par item' = value /\ inStock item' = inStock item) /\
  (forall value : jsval,
      exists item', live (updateItem id_ FOrder value s w) !! i = Some item' /\
        order item' = value /\ par item' = par item /\ inStock item' = inStock item) /\
  (forall (field : Field) (value : FieldValue field),
      field = FInStock \/ field = FPar ->
      let once := updateItem id_ field value s w in
      let twice := updateItem id_ field value (fst once) (snd once) in
      live twice = live once /\
      (order <$> live twice !! i) = (order <$> live once !! i)).
Proof.
  intros Hi Hid.
  assert (Hmatch : String.eqb (id item) id_ = true) by now apply String.eqb_eq.
  split; [|split; [|split]].
  - intros value. rewrite updateItem_live, list_lookup_fmap, Hi. cbn.
    eexists. split; [reflexivity|]. unfold updateOne. rewrite Hmatch. now cbn.
  - intros value. rewrite updateItem_live, list_lookup_fmap, Hi. cbn.
    eexists. split; [reflexivity|]. unfold updateOne. rewrite Hmatch. now cbn.
  - intros value. rewrite updateItem_live, list_lookup_fmap, Hi. cbn.
    eexists. split; [reflexivity|]. unfold updateOne. rewrite Hmatch. now cbn.
  - intros field value Hfield once twice.
    assert (Htwice : live twice = live once).
    { subst twice. destruct once as [s1 w1] eqn:Honce. cbn [fst snd].
      rewrite updateItem_live. rewrite <- Honce. subst once.
      rewrite updateItem_live, map_map.
      apply map_ext. intros a. now apply updateOne_twice. }
    split; [exact Htwice|now rewrite Htwice].
Qed.

(** C9: an edit keeps the length and the positions of the collection,
    leaves an item with another id as it is, changes on a matching item
    nothing but the named field and [order], and leaves the collection as
    it is when no item has the id. *)
Theorem update_frame (id_ : string) (field : Field) (value : FieldValue field)
    (s : AppState) (w : World) :
  let before := live (s, w) in
  let after := live (updateItem id_ field value s w) in
  length after = length before /\
  (forall (i : nat) (item : InvoiceItem),
      before !! i = Some item ->
      exists item', after !! i = Some item' /\
        (id item <> id_ -> item' = item) /\
        (forall other : Field, other <> field -> other <> FOrder ->
            getField other item' = getField other item)) /\
  (forall i : nat, before !! i = None -> after !! i = None) /\
  ((forall item : InvoiceItem, In item before -> id item <> id_) -> after = before).
Proof.
  intros before after. subst before after. rewrite updateItem_live.
  split; [now rewrite length_map|]. split; [|split].
  - intros i item Hi. rewrite list_lookup_fmap, Hi. cbn.
    eexists. split; [reflexivity|]. split.
    + apply updateOne_other.
    + intros other. apply updateOne_frame.
  - intros i Hi. now rewrite list_lookup_fmap, Hi.
  - intros Hnone. rewrite <- (map_id (live (s, w))) at 2.
    apply map_ext_in. intros a Ha. apply updateOne_other. now apply Hnone.
Qed.

End Review_state.

Lemma update_edit_rule_witness :
  let rt := Sample.rt in
  let s := Sample.state "" false in
  let w := Sample.world Sample.table in
  exists item', live (updateItem "a" FInStock (JStr "7") s w) !! 0%nat = Some item' /\
    order item' = JNum (Math_max 0 (num_sub 6 7)) /\ inStock item' = JStr "7".
Proof.
  intros rt s w.
  destruct (update_edit_rule (H := rt) "a" s w 0 (Sample.item "a" "banana" 2 6 4)
              eq_refl eq_refl) as (Hstock & _).
  destruct (Hstock (JStr "7")) as (item' & Hi & Ho & Hs & _).
  exists item'. split; [exact Hi|]. split; [exact Ho|exact Hs].
Defined.

Lemma update_frame_witness :
  let rt := Sample.rt in
  let s := Sample.state "" false in
  let w := Sample.world Sample.table in
  (forall item : InvoiceItem, In item (live (s, w)) -> id item <> "zz") /\
  live (updateItem "zz" FPar (JNum 3) s w) = live (s, w).
Proof.
  intros rt s w.
  assert (Hnone : forall item : InvoiceItem, In item (live (s, w)) -> id item <> "zz").
  { intros item [<- | [<- | [<- | []]]]; discriminate. }
  split; [exact Hnone|].
  now apply (update_frame (H := rt) "zz" FPar (JNum 3) s w).
Defined.

(** ** Substrings *)

Lemma startsWith_spec (p s : string) :
  startsWith p s = true <-> exists post, s = p +:+ post.
Proof.
  revert s. induction p as [|a p IH]; intros s; cbn.
  - split; [intros _; now exists s|reflexivity].
  - destruct s as [|b s]; [split; [discriminate|intros (post & Hpost); discriminate]|].
    destruct (Ascii.eqb_spec a b) as [->|Hab].
    + rewrite IH. split; intros (post & Hpost); exists post.
      * now rewrite Hpost.
      * now injection Hpost.
    + split; [discriminate|]. intros (post & Hpost). injection Hpost as Hb _.
      now subst.
Qed.

Lemma includes_spec (s p : string) :
  includes s p = true <-> exists pre post, s = pre +:+ p +:+ post.
Proof.
  induction s as [|c s IH]; cbn.
  - rewrite orb_false_r, startsWith_spec. split.
    + intros (post & Hpost). now exists "", post.
    + intros (pre & post & Hs). destruct pre; [now exists post|discriminate].
  - rewrite orb_true_iff, startsWith_spec, IH. split.
    + intros [(post & Hpost) | (pre & post & Hs)].
      * now exists "", post.
      * exists (String c pre), post. cbn. now rewrite Hs.
    + intros (pre & post & Hs). destruct pre as [|c' pre]; cbn in Hs.
      * left. now exists post.
      * right. injection Hs as _ Hs. now exists pre, post.
Qed.

(** ** Running the export paths *)

Section Export_runs.
Context `{JSRuntime}.

(** [[...r].sort(compareFn)] allocates one array, the sorted copy, and
    touches nothing else. *)
Lemma spread_sort_run (compareFn : InvoiceItem -> InvoiceItem -> Z) (r : loc) (w : World) :
  (copy ← spread r; array_sort compareFn copy) w
  = (length (heap w), set_heap (heap w ++ [sorted_order compareFn (array_at w r)]) w).
Proof.
  unfold spread, contents, alloc, array_sort, set_heap, array_at.
  repeat unfold mbind, M_bind. cbn.
  rewrite lookup_app_r by lia. rewrite Nat.sub_diag. cbn.
  f_equal. f_equal.
  rewrite insert_app_r_alt by lia. now rewrite Nat.sub_diag.
Qed.

Lemma getSortedExportData_run (s : AppState) (w : World) :
  getSortedExportData s w
  = (exported w (items s),
     set_heap (heap w ++ [sorted_order byDescription (array_at w (items s))]) w).
Proof.
  unfold getSortedExportData.
  pose proof (spread_sort_run byDescription (items s) w) as Hrun.
  unfold mbind, M_bind in Hrun |- *.
  destruct (spread (items s) w) as [copy w1].
  destruct (array_sort byDescription copy w1) as [sorted w2].
  injection Hrun as -> ->.
  unfold contents, mret, M_ret, exported, array_at, set_heap. cbn.
  rewrite lookup_app_r by lia. now rewrite Nat.sub_diag.
Qed.

Lemma uploadToScript_run (env : Env) (dataToUpload : loc) (url : string) (w : World) :
  url <> "" ->
  uploadToScript env dataToUpload url w
  = (match fetch env url (webhookBody (exported w dataToUpload)) with
     | FetchText text => includes text "Success"
     | FetchThrew => false
     end,
     {| heap := heap w ++ [sorted_order byDescription (array_at w dataToUpload)];
        clipboard := clipboard w;
        requests := requests w ++ [(url, webhookBody (exported w dataToUpload))];
        alerts := alerts w |}).
Proof.
  intros Hurl. unfold uploadToScript.
  destruct (String.eqb_spec url "") as [->|_]; [contradiction|].
  pose proof (spread_sort_run byDescription dataToUpload w) as Hrun.
  unfold mbind, M_bind in Hrun |- *.
  destruct (spread dataToUpload w) as [copy w1].
  destruct (array_sort byDescription copy w1) as [sorted w2].
  injection Hrun as -> ->.
  unfold contents, post, mret, M_ret, exported, array_at, set_heap. cbn.
  rewrite lookup_app_r by lia. rewrite Nat.sub_diag. cbn.
  destruct (fetch env url _) as [|text]; [reflexivity|].
  now destruct (includes text "Success").
Qed.

Lemma uploadToScript_no_url (env : Env) (dataToUpload : loc) (w : World) :
  uploadToScript env dataToUpload "" w = (false, w).
Proof. reflexivity. Qed.

End Export_runs.

(** ** Sorting *)

Section Sorting_facts.
Context {A : Type} (compareFn : A -> A -> Z).

Lemma sort_insert_perm (x : A) (l : list A) :
  Permutation (sort_insert compareFn x l) (x :: l).
Proof.
  induction l as [|y l IH]; cbn; [reflexivity|].
  destruct (compareFn x y <=? 0); [reflexivity|].
  rewrite IH. apply perm_swap.
Qed.

Lemma sorted_order_perm (l : list A) : Permutation (sorted_order compareFn l) l.
Proof.
  induction l as [|x l IH]; cbn; [reflexivity|].
  fold (sorted_order compareFn l). rewrite sort_insert_perm. now constructor.
Qed.

Lemma sorted_order_length (l : list A) : length (sorted_order compareFn l) = length l.
Proof. apply Permutation_length, sorted_order_perm. Qed.

Lemma sort_insert_sorted (x : A) (l : list A) :
  total_preorder compareFn ->
  StronglySorted (fun a b => compareFn a b <= 0) l ->
  StronglySorted (fun a b => compareFn a b <= 0) (sort_insert compareFn x l).
Proof.
  intros [Htotal Htrans] Hl. induction Hl as [|y l Hl IH Hy]; cbn.
  - constructor; constructor.
  - destruct (Z.leb_spec (compareFn x y) 0) as [Hxy|Hxy].
    + constructor; [now constructor|].
      constructor; [exact Hxy|].
      eapply Forall_impl; [exact Hy|]. intros z Hz. now apply (Htrans x y z).
    + constructor; [exact IH|].
      assert (Hyx : compareFn y x <= 0) by (destruct (Htotal x y); [lia|assumption]).
      rewrite List.Forall_forall. intros z Hz.
      apply (Permutation_in _ (sort_insert_perm x l)) in Hz.
      destruct Hz as [<- | Hz]; [exact Hyx|].
      rewrite List.Forall_forall in Hy. now apply Hy.
Qed.

Lemma sorted_order_sorted (l : list A) :
  total_preorder compareFn ->
  StronglySorted (fun a b => compareFn a b <= 0) (sorted_order compareFn l).
Proof.
  intros Hcmp. induction l as [|x l IH]; cbn; [constructor|].
  now apply sort_insert_sorted.
Qed.

(** An array that is already in order is left as it is. *)
Lemma sorted_order_id (l : list A) :
  StronglySorted (fun a b => compareFn a b <= 0) l -> sorted_order compareFn l = l.
Proof.
  induction 1 as [|x l Hl IH Hx]; cbn; [reflexivity|].
  fold (sorted_order compareFn l). rewrite IH.
  destruct l as [|y l]; cbn; [reflexivity|].
  inversion Hx as [|? ? Hxy _]; subst.
  destruct (Z.leb_spec (compareFn x y) 0); [reflexivity|lia].
Qed.

End Sorting_facts.

(** ** The ASCII runtime collates consistently *)

Lemma string_compare_le_trans (s1 s2 s3 : string) :
  String.compare s1 s2 <> Gt -> String.compare s2 s3 <> Gt -> String.compare s1 s3 <> Gt.
Proof.
  revert s2 s3.
  induction s1 as [|c1 s1 IH]; intros [|c2 s2] [|c3 s3]; cbn; try congruence.
  unfold Ascii.compare.
  destruct (N.compare_spec (N_of_ascii c1) (N_of_ascii c2)),
           (N.compare_spec (N_of_ascii c2) (N_of_ascii c3)),
           (N.compare_spec (N_of_ascii c1) (N_of_ascii c3));
    try congruence; try lia.
  apply IH.
Qed.

Lemma compare_bytes_le (a b : string) :
  Ascii_runtime.compare_bytes a b <= 0 <-> String.compare a b <> Gt.
Proof.
  unfold Ascii_runtime.compare_bytes.
  destruct (String.compare a b); split; intros; try lia; congruence.
Qed.

Lemma compare_bytes_total_preorder : total_preorder Ascii_runtime.compare_bytes.
Proof.
  split.
  - intros a b. rewrite !compare_bytes_le, (String.compare_antisym a b).
    destruct (String.compare b a); cbn; [left|right|left]; congruence.
  - intros a b c. rewrite !compare_bytes_le. apply string_compare_le_trans.
Qed.

(** ** Export sink *)

Section Export_sink.
Context `{JSRuntime}.

(** C4: once a request is made (a webhook URL is configured), the upload
    reports success exactly when the text of the response contains
    "Success"; a transport exception reports failure; "Success: 0 rows" is
    a success and "Error: locked" a failure. *)
Theorem webhook_success_criterion (env : Env) (dataToUpload : loc) (url : string)
    (w : World) :
  url <> "" ->
  let answer := fetch env url (webhookBody (exported w dataToUpload)) in
  let success := fst (uploadToScript env dataToUpload url w) in
  (forall text, answer = FetchText text -> (success = true <-> contains text "Success")) /\
  (answer = FetchThrew -> success = false) /\
  (answer = FetchText "Success: 0 rows" -> success = true) /\
  (answer = FetchText "Error: locked" -> success = false).
Proof.
  intros Hurl answer success. subst answer success.
  rewrite (uploadToScript_run env dataToUpload url w Hurl). cbn [fst].
  split; [|split; [|split]].
  - intros text ->. apply includes_spec.
  - now intros ->.
  - now intros ->.
  - now intros ->.
Qed.

(** C5: the text for the clipboard is one line per item, the items taken
    in the sorted order of their lower-cased descriptions, each line the
    six fields vendor, description, inStock, par, order, price separated by
    tabs, the lines separated by newlines and nothing before the first
    one; when the clipboard accepts it, this is the text written.  The
    single item V, D, 1, 5, 4, 2.5 gives the one line of the example. *)
Theorem clipboard_tsv (env : Env) (s : AppState) (w : World) :
  total_preorder localeCompare ->
  let sorted := sorted_order byDescription (live (s, w)) in
  let text :=
    array_join LF
      (map (fun i => array_join TAB
                       [vendor i; description i; ToString (inStock i);
                        ToString (par i); ToString (order i); ToString (price i)])
           sorted) in
  tsvContent (fst (getSortedExportData s w)) = text /\
  (clipboardAllowed env = true ->
     clipboard (snd (copyToClipboard env s w)) = Some text) /\
  Permutation sorted (live (s, w)) /\
  StronglySorted description_le sorted /\
  length (fst (getSortedExportData s w)) = length (live (s, w)) /\
  tsvContent (map toExportRow (sorted_order byDescription [Sample.item_D]))
    = "V" +:+ TAB +:+ "D" +:+ TAB +:+ "1" +:+ TAB +:+ "5" +:+ TAB +:+ "4" +:+ TAB +:+ "2.5".
Proof.
  intros [Htotal Htrans] sorted text.
  assert (Htext : tsvContent (fst (getSortedExportData s w)) = text).
  { rewrite getSortedExportData_run. cbn [fst]. unfold tsvContent, exported.
    rewrite map_map. reflexivity. }
  split; [exact Htext|]. split; [|split; [|split; [|split]]].
  - intros Hallowed. rewrite <- Htext. unfold copyToClipboard.
    repeat unfold mbind, M_bind.
    destruct (getSortedExportData s w) as [exportData w1]. cbn [fst].
    unfold writeText. rewrite Hallowed. reflexivity.
  - apply sorted_order_perm.
  - apply (sorted_order_sorted byDescription). split.
    + intros a b. apply Htotal.
    + intros a b c. apply Htrans.
  - rewrite getSortedExportData_run. cbn [fst]. unfold exported.
    now rewrite length_map, sorted_order_length.
  - reflexivity.
Qed.

End Export_sink.

Lemma webhook_success_criterion_witness :
  let env := Sample.env (FetchText "Success: 0 rows") true (Responded None) in
  fst (uploadToScript (H := Sample.rt) env 0%nat "https://script.example/exec"
         (Sample.world Sample.table)) = true.
Proof.
  intros env.
  apply (webhook_success_criterion (H := Sample.rt) env 0%nat
           "https://script.example/exec" (Sample.world Sample.table));
    [discriminate|reflexivity].
Defined.

Lemma clipboard_tsv_witness :
  let env := Sample.env FetchThrew true (Responded None) in
  StronglySorted (description_le (H := Sample.rt))
    (sorted_order (byDescription (H := Sample.rt)) Sample.table) /\
  clipboard (snd (copyToClipboard (H := Sample.rt) env (Sample.state "" false)
                    (Sample.world Sample.table)))
  = Some ("V" +:+ TAB +:+ "Apple" +:+ TAB +:+ "1" +:+ TAB +:+ "5" +:+ TAB +:+ "4"
            +:+ TAB +:+ "2.5" +:+ LF +:+
          "V" +:+ TAB +:+ "apple" +:+ TAB +:+ "0" +:+ TAB +:+ "10" +:+ TAB +:+ "10"
            +:+ TAB +:+ "2.5" +:+ LF +:+
          "V" +:+ TAB +:+ "banana" +:+ TAB +:+ "2" +:+ TAB +:+ "6" +:+ TAB +:+ "4"
            +:+ TAB +:+ "2.5").
Proof.
  intros env.
  destruct (clipboard_tsv (H := Sample.rt) env (Sample.state "" false)
              (Sample.world Sample.table) compare_bytes_total_preorder)
    as (_ & Hclip & _ & Hsorted & _).
  split; [exact Hsorted|].
  rewrite (Hclip eq_refl). reflexivity.
Defined.

(** ** What the handlers leave in the store *)

Lemma preserves_refl (w : World) : preserves w w.
Proof. now intros r l. Qed.

Lemma preserves_trans (w1 w2 w3 : World) :
  preserves w1 w2 -> preserves w2 w3 -> preserves w1 w3.
Proof. intros H12 H23 r l Hr. now apply H23, H12. Qed.

Lemma preserves_app (w w' : World) (extra : list (list InvoiceItem)) :
  heap w' = (heap w ++ extra)%list -> preserves w w'.
Proof. intros Hheap r l Hr. rewrite Hheap. now apply lookup_app_l_Some. Qed.

Lemma preserves_array_at (w w' : World) (r : loc) :
  preserves w w' -> allocated w r -> array_at w' r = array_at w r.
Proof.
  intros Hkeep Hr. unfold array_at.
  destruct (lookup_lt_is_Some_2 (heap w) r Hr) as [l Hl].
  now rewrite Hl, (Hkeep r l Hl).
Qed.

Lemma preserves_allocated (w w' : World) (r : loc) :
  preserves w w' -> allocated w r -> allocated w' r.
Proof.
  intros Hkeep Hr. unfold allocated in *.
  destruct (lookup_lt_is_Some_2 (heap w) r Hr) as [l Hl].
  apply (lookup_lt_Some _ _ l). now apply Hkeep.
Qed.

Section Handlers.
Context `{JSRuntime}.

Lemma copyToClipboard_run (env : Env) (s : AppState) (w : World) :
  copyToClipboard env s w
  = if clipboardAllowed env
    then ((true, setToastMessage "Data copied! (Sorted by name)" s),
          {| heap := heap w ++ [sorted_order byDescription (live (s, w))];
             clipboard := Some (tsvContent (exported w (items s)));
             requests := requests w; alerts := alerts w |})
    else ((false, setToastMessage "Clipboard access denied. Please allow permissions." s),
          set_heap (heap w ++ [sorted_order byDescription (live (s, w))]) w).
Proof.
  unfold copyToClipboard. repeat unfold mbind, M_bind.
  rewrite getSortedExportData_run. unfold writeText.
  now destruct (clipboardAllowed env).
Qed.

Lemma uploadToScript_preserves (env : Env) (r : loc) (url : string) (w : World) :
  preserves w (snd (uploadToScript env r url w)).
Proof.
  destruct (String.eqb_spec url "") as [->|Hurl].
  - rewrite uploadToScript_no_url. apply preserves_refl.
  - rewrite uploadToScript_run by assumption. now eapply preserves_app.
Qed.

Lemma copyToClipboard_preserves (env : Env) (s : AppState) (w : World) :
  preserves w (snd (copyToClipboard env s w)).
Proof.
  rewrite copyToClipboard_run.
  destruct (clipboardAllowed env); now eapply preserves_app.
Qed.

Lemma copyToClipboard_state (env : Env) (s : AppState) (w : World) :
  items (snd (fst (copyToClipboard env s w))) = items s /\
  history (snd (fst (copyToClipboard env s w))) = history s.
Proof. rewrite copyToClipboard_run. now destruct (clipboardAllowed env). Qed.

Lemma clipboardFallback_effect (env : Env) (s : AppState) (w : World) :
  history (fst (clipboardFallback env s w)) = history s /\
  items (fst (clipboardFallback env s w)) = items s /\
  preserves w (snd (clipboardFallback env s w)).
Proof.
  unfold clipboardFallback. repeat unfold mbind, M_bind.
  rewrite copyToClipboard_run.
  destruct (clipboardAllowed env); cbn; (split; [reflexivity|split; [reflexivity|]]);
    now eapply preserves_app.
Qed.

(** [handleManualExport] saves the record first; whatever the two
    delivery paths do afterwards, the table and the store are kept. *)
Lemma handleManualExport_effect (env : Env) (s : AppState) (w : World) :
  history (fst (handleManualExport env s w)) = exportRecord env s w :: history s /\
  items (fst (handleManualExport env s w)) = items s /\
  preserves w (snd (handleManualExport env s w)).
Proof.
  set (P := fun r : AppState * World =>
              history (fst r) = exportRecord env s w :: history s /\
              items (fst r) = items s /\ preserves w (snd r)).
  change (P (handleManualExport env s w)).
  assert (Hfallback : forall s1 w1,
             preserves w w1 -> items s1 = items s ->
             history s1 = exportRecord env s w :: history s ->
             P (clipboardFallback env s1 w1)).
  { intros s1 w1 Hkeep Hi Hh.
    destruct (clipboardFallback_effect env s1 w1) as (Hh' & Hi' & Hkeep').
    unfold P. rewrite Hh', Hi'. split; [exact Hh|split; [exact Hi|]].
    now apply (preserves_trans w w1). }
  unfold handleManualExport. repeat unfold mbind, M_bind.
  unfold contents at 1. cbn [fst snd settings setHistory items].
  destruct (String.eqb_spec (scriptUrl (settings s)) "") as [Hurl|Hurl]; cbn [negb].
  - apply Hfallback; [apply preserves_refl|reflexivity|reflexivity].
  - cbn [setIsProcessing setLoadingStep items settings].
    rewrite uploadToScript_run by assumption.
    destruct (fetch env _ _) as [|text]; [|destruct (includes text "Success")].
    + apply Hfallback; [now eapply preserves_app|reflexivity|reflexivity].
    + unfold P. cbn. split; [reflexivity|split; [reflexivity|]].
      now eapply preserves_app.
    + apply Hfallback; [now eapply preserves_app|reflexivity|reflexivity].
Qed.

(** No edit of the review table writes into an array that exists. *)
Lemma applyEdit_preserves (env : Env) (e : Edit) (s : AppState) (w : World) :
  preserves w (snd (applyEdit env e s w)).
Proof.
  destruct e as [id_ field value|id_| |]; cbn [applyEdit].
  - unfold updateItem, contents, alloc. repeat unfold mbind, M_bind. cbn.
    now eapply preserves_app.
  - unfold deleteItem, contents, alloc. repeat unfold mbind, M_bind. cbn.
    now eapply preserves_app.
  - unfold addItem, spread_with, contents, alloc. repeat unfold mbind, M_bind. cbn.
    now eapply preserves_app.
  - unfold sortItems. repeat unfold mbind at 1, M_bind at 1.
    pose proof (spread_sort_run byDescription (items s) w) as Hrun.
    repeat unfold mbind, M_bind in Hrun.
    repeat unfold mbind, M_bind.
    destruct (spread (items s) w) as [copy w1].
    destruct (array_sort byDescription copy w1) as [sorted w2].
    injection Hrun as -> ->. cbn. now eapply preserves_app.
Qed.

End Handlers.

Section Export_and_history.
Context `{JSRuntime}.

Lemma applyEdits_preserves (env : Env) (es : list Edit) (r : AppState * World) :
  preserves (snd r) (snd (applyEdits env es r)).
Proof.
  revert r. induction es as [|e es IH]; intros r; cbn [applyEdits].
  - apply preserves_refl.
  - eapply preserves_trans; [apply (applyEdit_preserves env e)|apply IH].
Qed.

(** C6: both export paths sort a copy.  The webhook upload and the
    clipboard export add one array to the store, the sorted copy, and every
    array that was there keeps its contents; so the table shows the same
    items in the same order afterwards, also after the whole export
    handler. *)
Theorem export_keeps_review_state (env : Env) (s : AppState) (w : World) :
  allocated w (items s) ->
  (forall url : string,
      let w' := snd (uploadToScript env (items s) url w) in
      live (s, w') = live (s, w) /\ preserves w w' /\
      (url <> "" ->
         heap w' = (heap w ++ [sorted_order byDescription (live (s, w))])%list)) /\
  (let r := copyToClipboard env s w in
   items (snd (fst r)) = items s /\
   live (snd (fst r), snd r) = live (s, w) /\ preserves w (snd r) /\
   heap (snd r) = (heap w ++ [sorted_order byDescription (live (s, w))])%list) /\
  (let w' := snd (getSortedExportData s w) in
   live (s, w') = live (s, w) /\ preserves w w') /\
  (let r := handleManualExport env s w in
   items (fst r) = items s /\ live r = live (s, w) /\ preserves w (snd r)).
Proof.
  intros Halloc. split; [|split; [|split]].
  - intros url w'. subst w'.
    pose proof (uploadToScript_preserves env (items s) url w) as Hkeep.
    split; [now apply preserves_array_at|]. split; [exact Hkeep|].
    intros Hurl. now rewrite uploadToScript_run.
  - cbn zeta.
    pose proof (copyToClipboard_preserves env s w) as Hkeep.
    destruct (copyToClipboard_state env s w) as [Hi _].
    split; [exact Hi|]. split; [|split; [exact Hkeep|]].
    + unfold live. cbn [fst snd]. rewrite Hi. now apply preserves_array_at.
    + rewrite copyToClipboard_run. now destruct (clipboardAllowed env).
  - cbn zeta. rewrite getSortedExportData_run. cbn [snd].
    assert (Hkeep : preserves w
              (set_heap (heap w ++ [sorted_order byDescription (array_at w (items s))]) w))
      by now eapply preserves_app.
    split; [now apply preserves_array_at|exact Hkeep].
  - cbn zeta. destruct (handleManualExport_effect env s w) as (_ & Hi & Hkeep).
    split; [exact Hi|]. split; [|exact Hkeep].
    unfold live. rewrite Hi. now apply preserves_array_at.
Qed.

(** C7 (amended): the export started from the review table appends
    exactly one record in front of the history, with status [Uploaded],
    the current collection as its items and the length of the collection
    as [totalItems], whatever the webhook and the clipboard answer; the
    older records follow unchanged, and no later edit of the table reaches
    the items of the record. *)
Theorem manual_export_records_history (env : Env) (s : AppState) (w : World) :
  allocated w (items s) ->
  let r := handleManualExport env s w in
  exists record : InvoiceRecord,
    history (fst r) = record :: history s /\
    status record = Uploaded /\
    array_at (snd r) (record_items record) = live (s, w) /\
    totalItems record = length (live (s, w)) /\
    record_id record = Date_now env /\
    date record = Date_toISOString env /\
    (forall es : list Edit,
        array_at (snd (applyEdits env es r)) (record_items record) = live (s, w)).
Proof.
  intros Halloc r. subst r.
  destruct (handleManualExport_effect env s w) as (Hh & Hi & Hkeep).
  exists (exportRecord env s w).
  split; [exact Hh|]. split; [reflexivity|].
  split; [now apply preserves_array_at|]. do 3 (split; [reflexivity|]).
  intros es. cbn [exportRecord record_items].
  apply preserves_array_at; [|exact Halloc].
  eapply preserves_trans; [exact Hkeep|apply applyEdits_preserves].
Qed.

End Export_and_history.

(** Sorting the array of the table itself, with no copy, reorders the
    table: the spread in the export paths is what keeps it. *)
Lemma sort_in_place_reorders :
  let w := Sample.world Sample.table in
  array_at (snd (array_sort (byDescription (H := Sample.rt)) 0%nat w)) 0%nat
  <> array_at w 0%nat.
Proof. discriminate. Qed.

Lemma export_keeps_review_state_witness :
  let env := Sample.env (FetchText "Error: locked") true (Responded None) in
  let s := Sample.state "https://script.example/exec" false in
  let w := Sample.world Sample.table in
  allocated w (items s) /\
  live (handleManualExport (H := Sample.rt) env s w) = Sample.table.
Proof.
  intros env s w.
  assert (Halloc : allocated w (items s)) by (unfold allocated; cbn; lia).
  split; [exact Halloc|].
  destruct (export_keeps_review_state (H := Sample.rt) env s w Halloc)
    as (_ & _ & _ & _ & Hlive & _).
  exact Hlive.
Defined.

Lemma manual_export_records_history_witness :
  let env := Sample.env FetchThrew false (Responded None) in
  let s := Sample.state "https://script.example/exec" false in
  let w := Sample.world Sample.table in
  allocated w (items s) /\
  exists record : InvoiceRecord,
    history (fst (handleManualExport (H := Sample.rt) env s w)) = [record] /\
    status record = Uploaded /\ totalItems record = 3%nat.
Proof.
  intros env s w.
  assert (Halloc : allocated w (items s)) by (unfold allocated; cbn; lia).
  split; [exact Halloc|].
  destruct (manual_export_records_history (H := Sample.rt) env s w Halloc)
    as (record & Hh & Hs & _ & Ht & _).
  exists record. split; [exact Hh|]. split; [exact Hs|exact Ht].
Defined.

(** C7, as specified, fails for the export that follows a scan: with
    auto-export on and a webhook configured, the rows are sent and the
    upload succeeds, and the history is left as it was. *)
Lemma auto_export_records_nothing :
  let env := Sample.env (FetchText "Success") true (Responded (Some Sample.rice_text)) in
  let s := Sample.state "https://script.example/exec" true in
  let w := Sample.world [] in
  let r := handleFileUpload (H := Sample.rt) env (FileData "AAAA" "image/jpeg") s w in
  toastMessage (fst r) = Some "Auto-Export Successful! ✅" /\
  length (requests (snd r)) = 1%nat /\
  ~ appended_one_record s (fst r).
Proof.
  intros env s w r. split; [reflexivity|]. split; [reflexivity|].
  intros (record & Hh & _). discriminate Hh.
Qed.

(** ** Model gateway *)

Section Gateway.
Context `{JSRuntime}.

(** C8 (amended): a bare list and an object with an [items] list are both
    accepted and every row of the list becomes one item; the result is the
    empty list when the response has no text or the object has no [items];
    a throwing call and a text that [JSON.parse] rejects both end in the
    same [Error], whose message does not depend on the cause, and nothing
    else is ever thrown. *)
Theorem gateway_result_handling
    (generateContent : string -> string -> GatewayOutcome)
    (freshId : nat -> string) (base64Data mimeType : string) :
  let outcome := generateContent base64Data mimeType in
  let result := extractInvoiceData generateContent freshId base64Data mimeType in
  (forall text rows, outcome = Responded (Some text) -> text <> "" ->
     JSON_parse text = Some (RawArray rows) ->
     result = Ok (imap (fun i row => toInvoiceItem "" (freshId i) row) rows)) /\
  (forall text v rows, outcome = Responded (Some text) -> text <> "" ->
     JSON_parse text = Some (RawObject v (Some rows)) ->
     result = Ok (imap (fun i row =>
                          toInvoiceItem (vendorNameOf (RawObject v (Some rows)))
                                        (freshId i) row) rows)) /\
  (outcome = Responded None \/ outcome = Responded (Some "") -> result = Ok []) /\
  (forall text v, outcome = Responded (Some text) -> text <> "" ->
     JSON_parse text = Some (RawObject v None) -> result = Ok []) /\
  (forall cause, outcome = CallThrew cause -> result = Throw EXTRACTION_FAILED) /\
  (forall text, outcome = Responded (Some text) -> text <> "" ->
     JSON_parse text = None -> result = Throw EXTRACTION_FAILED) /\
  (forall message, result = Throw message -> message = EXTRACTION_FAILED) /\
  (forall items_, result = Ok items_ ->
     items_ = [] \/
     exists text rawData, outcome = Responded (Some text) /\
       JSON_parse text = Some rawData /\
       length items_ = length (itemsListOf rawData)).
Proof.
  intros outcome result. subst outcome result. unfold extractInvoiceData.
  destruct (generateContent base64Data mimeType) as [cause|[text|]];
    [|destruct (String.eqb_spec text "") as [->|Htext];
      [|destruct (JSON_parse text) as [rawData|] eqn:Hparse]|].
  all: repeat apply conj.
  all: intros.
  all: repeat match goal with
         | Ho : _ \/ _ |- _ => destruct Ho
         | Ho : Responded _ = Responded _ |- _ => injection Ho as Ho
         | Ho : Throw _ = Throw _ |- _ => injection Ho as Ho
         | Ho : Ok _ = Ok _ |- _ => injection Ho as Ho
         end.
  all: subst; try discriminate; try congruence; try reflexivity.
  all: try (left; reflexivity).
  all: try match goal with
         | Hp : JSON_parse ?t = Some _, Hq : JSON_parse ?t = Some _ |- _ =>
             rewrite Hp in Hq; injection Hq as Hq; subst; reflexivity
         end.
  right. eexists _, rawData. rewrite length_imap.
  split; [reflexivity|]. split; [eassumption|reflexivity].
Qed.

End Gateway.

(** C8, as specified, fails: a text that [JSON.parse] rejects does not
    give the empty list, it gives the error of the [catch]. *)
Lemma unparsable_response_throws :
  let generateContent := fun _ _ : string => Responded (Some "{ not json") in
  JSON_parse (JSRuntime := Sample.rt) "{ not json" = None /\
  extractInvoiceData (H := Sample.rt) generateContent (fun _ => "item-0")
    "AAAA" "image/jpeg" = Throw EXTRACTION_FAILED /\
  extractInvoiceData (H := Sample.rt) generateContent (fun _ => "item-0")
    "AAAA" "image/jpeg" <> Ok [].
Proof. repeat split. discriminate. Qed.

Lemma gateway_result_handling_witness :
  let generateContent := fun _ _ : string => Responded (Some Sample.rice_text) in
  extractInvoiceData (H := Sample.rt) generateContent (fun i => "item-" +:+ pretty i)
    "AAAA" "image/jpeg"
  = Ok [ {| id := "item-0"; description := "Rice"; vendor := "Asian Vegetables";
            inStock := JNum 3; par := JNum 8; order := JNum 5; price := JNum 0 |} ].
Proof.
  intros generateContent.
  destruct (gateway_result_handling (H := Sample.rt) generateContent
              (fun i => "item-" +:+ pretty i) "AAAA" "image/jpeg")
    as (_ & Hobject & _).
  rewrite (Hobject Sample.rice_text (Some "Asian Vegetables") [row_of 3 0 0]
             eq_refl ltac:(discriminate) eq_refl).
  reflexivity.
Defined.

(** ** Empty collection *)

Section Empty_export.
Context `{JSRuntime}.

(** C10: for an empty collection the TSV text is the empty string and the
    body of the POST is the JSON text of an object whose [items] is the
    empty array; the clipboard path writes that empty text and the webhook
    path sends that body and reports what the response says. *)
Theorem empty_export (env : Env) (s : AppState) (w : World) :
  live (s, w) = [] ->
  let body := "{" +:+ DQUOTE +:+ "items" +:+ DQUOTE +:+ ":[]}" in
  tsvContent [] = "" /\
  webhookBody [] = body /\
  tsvContent (fst (getSortedExportData s w)) = "" /\
  (clipboardAllowed env = true ->
     fst (fst (copyToClipboard env s w)) = true /\
     clipboard (snd (copyToClipboard env s w)) = Some "") /\
  (forall url : string, url <> "" ->
     requests (snd (uploadToScript env (items s) url w))
       = (requests w ++ [(url, body)])%list /\
     fst (uploadToScript env (items s) url w)
       = match fetch env url body with
         | FetchText text => includes text "Success"
         | FetchThrew => false
         end).
Proof.
  intros Hempty body. unfold live in Hempty. cbn [fst snd] in Hempty.
  assert (Hexported : exported w (items s) = []).
  { unfold exported. now rewrite Hempty. }
  split; [reflexivity|]. split; [reflexivity|]. split; [|split].
  - rewrite getSortedExportData_run. cbn [fst]. now rewrite Hexported.
  - intros Hallowed. rewrite copyToClipboard_run, Hallowed. cbn [fst snd clipboard].
    now rewrite Hexported.
  - intros url Hurl. rewrite uploadToScript_run by assumption.
    cbn [fst snd requests]. now rewrite Hexported.
Qed.

End Empty_export.

Lemma empty_export_witness :
  let env := Sample.env (FetchText "Success") true (Responded None) in
  let s := Sample.state "https://script.example/exec" false in
  let w := Sample.world [] in
  live (s, w) = [] /\
  clipboard (snd (copyToClipboard (H := Sample.rt) env s w)) = Some "" /\
  fst (uploadToScript (H := Sample.rt) env (items s) "https://script.example/exec" w) = true.
Proof.
  intros env s w.
  destruct (empty_export (H := Sample.rt) env s w eq_refl)
    as (_ & _ & _ & Hclip & Hpost).
  split; [reflexivity|]. split.
  - now apply Hclip.
  - destruct (Hpost "https://script.example/exec" ltac:(discriminate)) as [_ ->].
    reflexivity.
Defined.

(** * Further properties *)

(** ** Arithmetic of the number model *)





Lemma num_lift2_finite (f : Z -> Z -> Z) (m1 : Z) (e1 : nat) (m2 : Z) (e2 : nat) :
  exists m e, num_lift2 f (Dec m1 e1) (Dec m2 e2) = Dec m e.
Proof. cbn. eauto. Qed.




(** ** Normalisation, beyond par and order *)









Section Extraction_shape.
Context `{JSRuntime}.

(** X3: the items of one extraction all carry the same vendor, the
    item at position [i] has the identifier drawn for row [i], and no item
    has an empty description. *)
Theorem extraction_is_uniform
    (generateContent : string -> string -> GatewayOutcome)
    (freshId : nat -> string) (base64Data mimeType : string)
    (extracted : list InvoiceItem) :
  extractInvoiceData generateContent freshId base64Data mimeType = Ok extracted ->
  exists vendorName : string,
    forall (i : nat) (item : InvoiceItem),
      extracted !! i = Some item ->
      vendor item = vendorName /\ id item = freshId i /\ description item <> "".
Proof.
  unfold extractInvoiceData.
  destruct (generateContent base64Data mimeType) as [cause|[text|]];
    [discriminate| |].
  - destruct (String.eqb text "").
    + intros Hok. injection Hok as <-. exists "". intros i item Hi. discriminate Hi.
    + destruct (JSON_parse text) as [rawData|]; [|discriminate].
      intros Hok. injection Hok as <-. exists (vendorNameOf rawData).
      intros i item Hi. rewrite list_lookup_imap in Hi.
      destruct (itemsListOf rawData !! i) as [row|]; [|discriminate Hi].
      cbn in Hi. injection Hi as <-. cbn.
      split; [reflexivity|]. split; [reflexivity|].
      unfold descriptionOr. destruct (raw_description row) as [[|c d]|]; discriminate.
  - intros Hok. injection Hok as <-. exists "". intros i item Hi. discriminate Hi.
Qed.

End Extraction_shape.

Lemma extraction_is_uniform_witness :
  let generateContent := fun _ _ : string => Responded (Some Sample.rice_text) in
  let freshId := fun i : nat => "item-" +:+ pretty i in
  let extracted :=
    [ {| id := "item-0"; description := "Rice"; vendor := "Asian Vegetables";
         inStock := JNum 3; par := JNum 8; order := JNum 5; price := JNum 0 |} ] in
  extractInvoiceData (H := Sample.rt) generateContent freshId "AAAA" "image/jpeg"
    = Ok extracted /\
  exists vendorName : string,
    forall (i : nat) (item : InvoiceItem),
      extracted !! i = Some item ->
      vendor item = vendorName /\ id item = freshId i /\ description item <> "".
Proof.
  intros generateContent freshId extracted.
  split; [reflexivity|].
  apply (extraction_is_uniform (H := Sample.rt) generateContent freshId
           "AAAA" "image/jpeg" extracted).
  reflexivity.
Defined.

(** ** Sorting is stable and idempotent *)

Section Stable_sort.
Context {A : Type} (compareFn : A -> A -> Z).
Hypothesis Hcmp : total_preorder compareFn.

Lemma sort_insert_ties (x a : A) (l : list A) :
  List.filter (ties compareFn x) (sort_insert compareFn a l)
  = List.filter (ties compareFn x) (a :: l).
Proof.
  destruct Hcmp as [Htotal Htrans].
  induction l as [|y l IH]; [reflexivity|].
  cbn [sort_insert]. destruct (Z.leb_spec (compareFn a y) 0) as [Hay|Hay];
    [reflexivity|].
  cbn [List.filter] in *. rewrite IH.
  destruct (ties compareFn x a) eqn:Ha; [|reflexivity].
  destruct (ties compareFn x y) eqn:Hy; [|reflexivity].
  unfold ties in Ha, Hy.
  apply andb_true_iff in Ha as [_ Hax]. apply andb_true_iff in Hy as [Hxy _].
  apply Z.leb_le in Hax, Hxy. specialize (Htrans a x y Hax Hxy). lia.
Qed.

Lemma sorted_order_ties (x : A) (l : list A) :
  List.filter (ties compareFn x) (sorted_order compareFn l)
  = List.filter (ties compareFn x) l.
Proof.
  induction l as [|a l IH]; [reflexivity|].
  cbn [sorted_order foldr]. fold (sorted_order compareFn l).
  rewrite sort_insert_ties. cbn [List.filter]. now rewrite IH.
Qed.

Lemma sorted_order_twice (l : list A) :
  sorted_order compareFn (sorted_order compareFn l) = sorted_order compareFn l.
Proof. apply sorted_order_id, sorted_order_sorted, Hcmp. Qed.

End Stable_sort.

(** ** The review table, beyond [updateItem] *)

Section Review_table.
Context `{JSRuntime}.

Lemma deleteItem_live (id_ : string) (s : AppState) (w : World) :
  live (deleteItem id_ s w) = filter (fun i => id i <> id_) (live (s, w)).
Proof.
  unfold live, deleteItem, contents. repeat unfold mbind, M_bind. cbn.
  apply (array_at_alloc w).
Qed.

Lemma addItem_live (env : Env) (s : AppState) (w : World) :
  live (addItem env s w) = (live (s, w) ++ [manualItem env])%list.
Proof.
  unfold live, addItem, spread_with, contents. repeat unfold mbind, M_bind. cbn.
  apply (array_at_alloc w).
Qed.

Lemma sortItems_live (s : AppState) (w : World) :
  live (sortItems s w) = sorted_order byDescription (live (s, w)).
Proof.
  unfold live, sortItems.
  pose proof (spread_sort_run byDescription (items s) w) as Hrun.
  repeat unfold mbind, M_bind in Hrun. repeat unfold mbind, M_bind.
  destruct (spread (items s) w) as [copy w1].
  destruct (array_sort byDescription copy w1) as [sorted w2].
  injection Hrun as -> ->.
  unfold mret, M_ret, array_at, set_heap. cbn.
  rewrite lookup_app_r by lia. now rewrite Nat.sub_diag.
Qed.

Lemma byDescription_total_preorder :
  total_preorder localeCompare -> total_preorder byDescription.
Proof.
  intros [Htotal Htrans]. split.
  - intros a b. apply Htotal.
  - intros a b c. apply Htrans.
Qed.

(** X4: [deleteItem] removes every item with the given id and nothing
    else, keeps the remaining items in their order, leaves the table as it
    is when no item has the id, and has nothing left to do when repeated. *)
Theorem delete_removes_every_match (id_ : string) (s : AppState) (w : World) :
  let before := live (s, w) in
  let deleted := deleteItem id_ s w in
  (forall item : InvoiceItem,
      item ∈ live deleted <-> item ∈ before /\ id item <> id_) /\
  sublist (live deleted) before /\
  ((forall item : InvoiceItem, item ∈ before -> id item <> id_) ->
     live deleted = before) /\
  live (deleteItem id_ (fst deleted) (snd deleted)) = live deleted.
Proof.
  intros before deleted. subst before deleted.
  assert (Hagain : live (deleteItem id_ (fst (deleteItem id_ s w))
                            (snd (deleteItem id_ s w)))
                   = filter (fun i => id i <> id_) (live (deleteItem id_ s w))).
  { destruct (deleteItem id_ s w) as [s1 w1] eqn:Hd. cbn [fst snd].
    apply deleteItem_live. }
  rewrite Hagain, deleteItem_live.
  split; [|split; [|split]].
  - intros item. rewrite list_elem_of_filter. tauto.
  - apply sublist_filter.
  - intros Hnone. induction (live (s, w)) as [|a l IH]; [reflexivity|].
    rewrite filter_cons_True by (apply Hnone; left).
    f_equal. apply IH. intros item Hitem. apply Hnone. now right.
  - induction (live (s, w)) as [|a l IH]; [reflexivity|].
    destruct (decide (id a <> id_)) as [Ha|Ha].
    + rewrite filter_cons_True by assumption.
      rewrite filter_cons_True by assumption. now f_equal.
    + now rewrite filter_cons_False by assumption.
Qed.

(** X5: [addItem] puts one blank row (stock 0, par 10, order 10) after
    the rows of the table; deleting it by its id gives the table back.
    The id is built from the clock alone, so two rows added at the same
    clock value share it, and deleting one deletes both. *)
Theorem add_then_delete (env : Env) (s : AppState) (w : World) :
  (forall item : InvoiceItem, item ∈ live (s, w) -> id item <> id (manualItem env)) ->
  let added := addItem env s w in
  let twice := addItem env (fst added) (snd added) in
  live added = (live (s, w) ++ [manualItem env])%list /\
  live (deleteItem (id (manualItem env)) (fst added) (snd added)) = live (s, w) /\
  live twice = (live (s, w) ++ [manualItem env; manualItem env])%list /\
  live (deleteItem (id (manualItem env)) (fst twice) (snd twice)) = live (s, w).
Proof.
  intros Hfresh added twice.
  assert (Hkeep : filter (fun i => id i <> id (manualItem env)) (live (s, w))
                  = live (s, w)).
  { induction (live (s, w)) as [|a l IH]; [reflexivity|].
    rewrite filter_cons_True by (apply Hfresh; left).
    f_equal. apply IH. intros item Hitem. apply Hfresh. now right. }
  assert (Hadded : live added = (live (s, w) ++ [manualItem env])%list)
    by apply addItem_live.
  assert (Htwice : live twice
                   = (live (s, w) ++ [manualItem env; manualItem env])%list).
  { subst twice. destruct added as [s1 w1]. cbn [fst snd].
    rewrite addItem_live, Hadded, <- app_assoc. reflexivity. }
  split; [exact Hadded|]. split; [|split; [exact Htwice|]].
  - destruct added as [s1 w1]. cbn [fst snd].
    rewrite deleteItem_live, Hadded, filter_app, Hkeep.
    rewrite filter_cons_False by (intros Hne; now apply Hne).
    rewrite filter_nil. apply app_nil_r.
  - destruct twice as [s2 w2]. cbn [fst snd].
    rewrite deleteItem_live, Htwice, filter_app, Hkeep.
    rewrite filter_cons_False by (intros Hne; now apply Hne).
    rewrite filter_cons_False by (intros Hne; now apply Hne).
    rewrite filter_nil. apply app_nil_r.
Qed.

End Review_table.

Lemma add_then_delete_witness :
  let env := Sample.env FetchThrew true (Responded None) in
  let s := Sample.state "" false in
  let w := Sample.world Sample.table in
  let added := addItem env s w in
  (forall item : InvoiceItem, item ∈ live (s, w) -> id item <> id (manualItem env)) /\
  live (deleteItem (id (manualItem env)) (fst added) (snd added)) = Sample.table.
Proof.
  intros env s w added.
  assert (Hfresh : forall item : InvoiceItem,
             item ∈ live (s, w) -> id item <> id (manualItem env)).
  { intros item Hitem. apply list_elem_of_In in Hitem.
    destruct Hitem as [<- | [<- | [<- | []]]]; discriminate. }
  split; [exact Hfresh|].
  now apply (add_then_delete env s w Hfresh).
Defined.

Section Sorting_the_table.
Context `{JSRuntime}.
Hypothesis Hcollation : total_preorder localeCompare.

(** X6: [sortItems] shows the same rows ordered by lower-cased
    description; rows whose descriptions tie keep their order (the sort is
    stable); sorting a second time changes nothing. *)
Theorem sort_orders_the_table (s : AppState) (w : World) :
  let sorted := sortItems s w in
  Permutation (live sorted) (live (s, w)) /\
  StronglySorted description_le (live sorted) /\
  (forall x : InvoiceItem,
      List.filter (ties byDescription x) (live sorted)
      = List.filter (ties byDescription x) (live (s, w))) /\
  live (sortItems (fst sorted) (snd sorted)) = live sorted /\
  toastMessage (fst sorted) = Some "Sorted by Description".
Proof.
  pose proof (byDescription_total_preorder Hcollation) as Hcmp.
  intros sorted.
  assert (Hlive : live sorted = sorted_order byDescription (live (s, w)))
    by apply sortItems_live.
  split; [rewrite Hlive; apply sorted_order_perm|].
  split; [rewrite Hlive; now apply (sorted_order_sorted byDescription)|].
  split; [intros x; rewrite Hlive; now apply sorted_order_ties|].
  split.
  - destruct sorted as [s1 w1]. cbn [fst snd].
    rewrite sortItems_live, Hlive. now apply sorted_order_twice.
  - subst sorted. unfold sortItems. repeat unfold mbind, M_bind.
    destruct (spread (items s) w) as [copy w1].
    now destruct (array_sort byDescription copy w1) as [r w2].
Qed.

(** X7: what is exported does not depend on whether the user sorted
    the table first: the rows, the clipboard text and the webhook body
    after [sortItems] are those before it. *)
Theorem sort_then_export (s : AppState) (w : World) :
  let sorted := sortItems s w in
  let rows := fst (getSortedExportData s w) in
  let rows' := fst (getSortedExportData (fst sorted) (snd sorted)) in
  rows' = rows /\ tsvContent rows' = tsvContent rows /\
  webhookBody rows' = webhookBody rows.
Proof.
  pose proof (byDescription_total_preorder Hcollation) as Hcmp.
  intros sorted rows rows'.
  assert (Hrows : rows' = rows).
  { subst rows rows'. rewrite !getSortedExportData_run. cbn [fst]. unfold exported.
    pose proof (sortItems_live s w) as Hlive. fold sorted in Hlive.
    unfold live in Hlive. cbn [fst snd] in Hlive. rewrite Hlive.
    now rewrite sorted_order_twice. }
  now rewrite Hrows.
Qed.

End Sorting_the_table.

Lemma sort_orders_the_table_witness :
  let s := Sample.state "" false in
  let w := Sample.world Sample.table in
  live (sortItems (H := Sample.rt) s w)
  = [ Sample.item "b" "Apple" 1 5 4; Sample.item "c" "apple" 0 10 10;
      Sample.item "a" "banana" 2 6 4 ] /\
  StronglySorted (description_le (H := Sample.rt)) (live (sortItems (H := Sample.rt) s w)).
Proof.
  intros s w. split; [reflexivity|].
  apply (sort_orders_the_table (H := Sample.rt) compare_bytes_total_preorder s w).
Defined.

Lemma sort_then_export_witness :
  let s := Sample.state "" false in
  let w := Sample.world Sample.table in
  let sorted := sortItems (H := Sample.rt) s w in
  tsvContent (fst (getSortedExportData (H := Sample.rt) (fst sorted) (snd sorted)))
  = tsvContent (fst (getSortedExportData (H := Sample.rt) s w)).
Proof.
  intros s w sorted.
  apply (sort_then_export (H := Sample.rt) compare_bytes_total_preorder s w).
Defined.

Section Edits.
Context `{JSRuntime}.

Lemma updateOne_commute (id1 : string) (f1 : Field) (v1 : FieldValue f1)
    (id2 : string) (f2 : Field) (v2 : FieldValue f2) (item : InvoiceItem) :
  id1 <> id2 -> f1 <> FId -> f2 <> FId ->
  updateOne id2 f2 v2 (updateOne id1 f1 v1 item)
  = updateOne id1 f1 v1 (updateOne id2 f2 v2 item).
Proof.
  intros Hids Hf1 Hf2.
  destruct (String.eqb_spec (id item) id1) as [H1|H1].
  - assert (H2 : id item <> id2) by congruence.
    rewrite (updateOne_other id2 f2 v2 item H2).
    apply updateOne_other. rewrite updateOne_id by assumption. exact H2.
  - rewrite (updateOne_other id1 f1 v1 item H1).
    symmetry. apply updateOne_other. rewrite updateOne_id by assumption. exact H1.
Qed.

(** X8: edits of two different items can be made in either order: the
    table is the same afterwards. *)
Theorem edits_of_different_items_commute
    (id1 : string) (f1 : Field) (v1 : FieldValue f1)
    (id2 : string) (f2 : Field) (v2 : FieldValue f2)
    (s : AppState) (w : World) :
  id1 <> id2 -> f1 <> FId -> f2 <> FId ->
  let first := updateItem id1 f1 v1 s w in
  let second := updateItem id2 f2 v2 s w in
  live (updateItem id2 f2 v2 (fst first) (snd first))
  = live (updateItem id1 f1 v1 (fst second) (snd second)).
Proof.
  intros Hids Hf1 Hf2 first second.
  assert (Hfirst : live first = map (updateOne id1 f1 v1) (live (s, w)))
    by apply updateItem_live.
  assert (Hsecond : live second = map (updateOne id2 f2 v2) (live (s, w)))
    by apply updateItem_live.
  destruct first as [s1 w1], second as [s2 w2]. cbn [fst snd].
  rewrite !updateItem_live, Hfirst, Hsecond, !map_map.
  apply map_ext. intros item. now apply updateOne_commute.
Qed.


End Edits.

Lemma edits_of_different_items_commute_witness :
  let s := Sample.state "" false in
  let w := Sample.world Sample.table in
  let first := updateItem (H := Sample.rt) "a" FInStock (JStr "9") s w in
  let second := updateItem (H := Sample.rt) "b" FVendor "Acme" s w in
  live (updateItem (H := Sample.rt) "b" FVendor "Acme" (fst first) (snd first))
  = live (updateItem (H := Sample.rt) "a" FInStock (JStr "9") (fst second) (snd second)).
Proof.
  intros s w first second.
  apply (edits_of_different_items_commute (H := Sample.rt)
           "a" FInStock (JStr "9") "b" FVendor "Acme" s w); discriminate.
Defined.


Section Total_order.
Context `{JSRuntime}.

Lemma updateOne_order_is_number (id_ : string) (field : Field)
    (value : FieldValue field) (item : InvoiceItem) :
  from_table (EditUpdate id_ field value) ->
  order_is_number item -> order_is_number (updateOne id_ field value item).
Proof.
  intros Hui Hitem. unfold updateOne.
  destruct (String.eqb (id item) id_); [|exact Hitem].
  destruct field; cbn in *; try exact Hitem; try contradiction;
    unfold order_is_number; cbn; eauto.
Qed.

Lemma applyEdit_order_is_number (env : Env) (e : Edit) (s : AppState) (w : World) :
  from_table e ->
  Forall order_is_number (live (s, w)) ->
  Forall order_is_number (live (applyEdit env e s w)).
Proof.
  intros Hui Hall. destruct e as [id_ field value|id_| |]; cbn [applyEdit].
  - rewrite updateItem_live. apply Forall_fmap.
    eapply Forall_impl; [exact Hall|]. intros item. now apply updateOne_order_is_number.
  - rewrite deleteItem_live. rewrite List.Forall_forall in *. intros item Hitem.
    apply Hall. apply list_elem_of_In in Hitem. apply list_elem_of_filter in Hitem.
    apply list_elem_of_In. tauto.
  - rewrite addItem_live. apply Forall_app. split; [exact Hall|].
    constructor; [|constructor]. now exists 10.
  - rewrite sortItems_live. rewrite List.Forall_forall in *. intros item Hitem.
    apply Hall. now apply (Permutation_in _ (sorted_order_perm byDescription _)).
Qed.

Lemma applyEdits_order_is_number (env : Env) (es : list Edit) (r : AppState * World) :
  Forall from_table es ->
  Forall order_is_number (live r) ->
  Forall order_is_number (live (applyEdits env es r)).
Proof.
  revert r. induction es as [|e es IH]; intros r Hui Hall; cbn [applyEdits];
    [exact Hall|].
  inversion Hui as [|? ? He Hes]; subst.
  apply IH; [exact Hes|]. destruct r as [s w]. now apply applyEdit_order_is_number.
Qed.

Lemma fold_orders_number (l : list InvoiceItem) (acc : number) :
  Forall order_is_number l ->
  exists n, fold_left (fun sum item => js_plus sum (order item)) l (JNum acc) = JNum n.
Proof.
  revert acc. induction l as [|item l IH]; intros acc Hall; cbn; [eauto|].
  inversion Hall as [|? ? (n & Hn) Hl]; subst. rewrite Hn. cbn. now apply IH.
Qed.

Lemma fold_orders_text (l : list InvoiceItem) (acc : jsval) :
  (exists t, acc = JStr t) \/ Exists (fun item => exists t, order item = JStr t) l ->
  exists t, fold_left (fun sum item => js_plus sum (order item)) l acc = JStr t.
Proof.
  revert acc. induction l as [|item l IH]; intros acc [Hacc|Hl]; cbn.
  - exact Hacc.
  - inversion Hl.
  - apply IH. left. destruct Hacc as (t & ->). cbn. eauto.
  - apply IH. inversion Hl as [? ? (t & Ht)|? ? Hrest]; subst.
    + left. rewrite Ht. destruct acc; cbn; eauto.
    + now right.
Qed.

(** X10: the total shown under the review table is a number for every
    table reached from one whose orders are numbers through the edits the
    table offers (its order input passes [Number(...)]): every such edit
    keeps [order] a number.  One textual [order] is enough to turn the
    total into a text, because [+] then concatenates. *)
Theorem total_order_is_a_number (env : Env) (es : list Edit)
    (s : AppState) (w : World) :
  Forall order_is_number (live (s, w)) ->
  Forall from_table es ->
  let r := applyEdits env es (s, w) in
  Forall order_is_number (live r) /\
  (exists n, totalOrder (live r) = JNum n) /\
  (forall l : list InvoiceItem,
      Exists (fun item => exists t, order item = JStr t) l ->
      exists t, totalOrder l = JStr t).
Proof.
  intros Hall Hui r.
  assert (Hr : Forall order_is_number (live r))
    by now apply applyEdits_order_is_number.
  split; [exact Hr|]. split.
  - now apply fold_orders_number.
  - intros l Hl. apply fold_orders_text. now right.
Qed.

End Total_order.

Lemma total_order_is_a_number_witness :
  let env := Sample.env FetchThrew true (Responded None) in
  let s := Sample.state "" false in
  let w := Sample.world Sample.table in
  let es := [EditUpdate "a" FInStock (JStr "3"); EditAdd; EditUpdate "b" FOrder (JNum 7)] in
  totalOrder (live (s, w)) = JNum 18 /\
  exists n, totalOrder (live (applyEdits (H := Sample.rt) env es (s, w))) = JNum n.
Proof.
  intros env s w es. split; [reflexivity|].
  apply (total_order_is_a_number (H := Sample.rt) env es s w).
  - repeat constructor; eexists; reflexivity.
  - repeat constructor. now exists 7.
Defined.

(** ** The export handler, path by path *)

Section Delivery.
Context `{JSRuntime}.

Lemma array_at_extended (w : World) (extra : list (list InvoiceItem)) (r : loc)
    (c : option string) (q : list (string * string)) (a : list string) :
  allocated w r ->
  array_at {| heap := heap w ++ extra; clipboard := c; requests := q; alerts := a |} r
  = array_at w r.
Proof.
  intros Hr. unfold array_at. cbn. now rewrite lookup_app_l.
Qed.

Lemma clipboardFallback_run (env : Env) (s : AppState) (w : World) :
  clipboardFallback env s w
  = if clipboardAllowed env
    then (setShowExportModal true (setToastMessage "Data copied! (Sorted by name)" s),
          {| heap := heap w ++ [sorted_order byDescription (live (s, w))];
             clipboard := Some (tsvContent (exported w (items s)));
             requests := requests w; alerts := alerts w |})
    else (setShowExportModal true
            (setToastMessage "Clipboard access denied. Please allow permissions." s),
          set_heap (heap w ++ [sorted_order byDescription (live (s, w))]) w).
Proof.
  unfold clipboardFallback. repeat unfold mbind, M_bind.
  rewrite copyToClipboard_run. now destruct (clipboardAllowed env).
Qed.

Lemma handleManualExport_run (env : Env) (s : AppState) (w : World) :
  handleManualExport env s w
  = let s0 := setHistory (fun prev => exportRecord env s w :: prev) s in
    if String.eqb (scriptUrl (settings s)) "" then clipboardFallback env s0 w
    else
      let up := uploadToScript env (items s) (scriptUrl (settings s)) w in
      let s2 := setLoadingStep None
                  (setIsProcessing false
                     (setIsProcessing true (setLoadingStep (Some "uploading") s0))) in
      if fst up
      then (setView DASHBOARD (setToastMessage "Sent to Sheet! (Sorted by name)" s2),
            snd up)
      else clipboardFallback env
             (setToastMessage "Auto-upload failed. Switching to manual copy." s2)
             (snd up).
Proof.
  unfold handleManualExport, exportRecord, live. repeat unfold mbind, M_bind.
  unfold contents at 1.
  cbn [fst snd settings setHistory items setIsProcessing setLoadingStep].
  destruct (String.eqb (scriptUrl (settings s)) ""); cbn [negb]; [reflexivity|].
  destruct (uploadToScript env (items s) (scriptUrl (settings s)) w) as [[|] w1];
    reflexivity.
Qed.

(** X11: [handleManualExport] tries the webhook first and the clipboard
    only when the webhook is missing or did not report success.  At most
    one request is made, with the sorted rows as its body.  After a
    successful upload the clipboard and the export dialog are left alone
    and the view returns to the dashboard; otherwise the dialog opens, the
    view stays, and the clipboard receives the same rows as text when it
    may be written. *)
Theorem manual_export_delivery (env : Env) (s : AppState) (w : World) :
  allocated w (items s) ->
  let url := scriptUrl (settings s) in
  let rows := exported w (items s) in
  let delivered :=
    negb (String.eqb url "") &&
    match fetch env url (webhookBody rows) with
    | FetchText text => includes text "Success"
    | FetchThrew => false
    end in
  let r := handleManualExport env s w in
  requests (snd r)
    = (requests w ++ if String.eqb url "" then [] else [(url, webhookBody rows)])%list /\
  (delivered = true ->
     view (fst r) = DASHBOARD /\ clipboard (snd r) = clipboard w /\
     showExportModal (fst r) = showExportModal s /\
     toastMessage (fst r) = Some "Sent to Sheet! (Sorted by name)") /\
  (delivered = false ->
     view (fst r) = view s /\ showExportModal (fst r) = true /\
     (clipboardAllowed env = true ->
        clipboard (snd r) = Some (tsvContent rows) /\
        toastMessage (fst r) = Some "Data copied! (Sorted by name)") /\
     (clipboardAllowed env = false ->
        clipboard (snd r) = clipboard w /\
        toastMessage (fst r)
          = Some "Clipboard access denied. Please allow permissions.")).
Proof.
  intros Halloc url rows delivered r. subst url rows delivered r.
  rewrite handleManualExport_run. cbv zeta.
  assert (Hrows : forall c q a,
             exported {| heap := heap w ++ [sorted_order byDescription (array_at w (items s))];
                         clipboard := c; requests := q; alerts := a |} (items s)
             = exported w (items s)).
  { intros c q a. unfold exported. now rewrite array_at_extended. }
  destruct (String.eqb_spec (scriptUrl (settings s)) "") as [Hurl|Hurl]; cbn [negb andb].
  - rewrite clipboardFallback_run.
    destruct (clipboardAllowed env); cbn; rewrite ?app_nil_r;
      (split; [reflexivity|]); (split; [discriminate|]); intros _;
      repeat split; try reflexivity; try discriminate.
  - rewrite uploadToScript_run by assumption. cbn [fst snd].
    destruct (fetch env _ _) as [|text]; [|destruct (includes text "Success")].
    + rewrite clipboardFallback_run.
      destruct (clipboardAllowed env); cbn; rewrite ?Hrows;
        (split; [reflexivity|]); (split; [discriminate|]); intros _;
        repeat split; try reflexivity; try discriminate.
    + cbn. split; [reflexivity|]. split; [|discriminate]. intros _. now repeat split.
    + rewrite clipboardFallback_run.
      destruct (clipboardAllowed env); cbn; rewrite ?Hrows;
        (split; [reflexivity|]); (split; [discriminate|]); intros _;
        repeat split; try reflexivity; try discriminate.
Qed.

End Delivery.

Lemma manual_export_delivery_witness :
  let env := Sample.env (FetchText "Error: locked") true (Responded None) in
  let s := Sample.state "https://script.example/exec" false in
  let w := Sample.world Sample.table in
  let r := handleManualExport (H := Sample.rt) env s w in
  allocated w (items s) /\
  showExportModal (fst r) = true /\
  clipboard (snd r) = Some (tsvContent (exported (H := Sample.rt) w (items s))).
Proof.
  intros env s w r.
  assert (Halloc : allocated w (items s)) by (unfold allocated; cbn; lia).
  split; [exact Halloc|].
  destruct (manual_export_delivery (H := Sample.rt) env s w Halloc)
    as (_ & _ & Hfallback).
  destruct (Hfallback eq_refl) as (_ & Hmodal & Hclip & _).
  split; [exact Hmodal|]. now apply Hclip.
Defined.

(** ** Scanning a page *)

Section Scanning.
Context `{JSRuntime}.

Lemma handleFileUpload_ok_run (env : Env) (base64Data mimeType : string)
    (extracted : list InvoiceItem) (s : AppState) (w : World) :
  extractInvoiceData (generateContent env) (freshId env) base64Data mimeType
    = Ok extracted ->
  handleFileUpload env (FileData base64Data mimeType) s w
  = let s0 := setView SCAN (setLoadingStep (Some "analyzing") (setIsProcessing true s)) in
    let n := length (heap w) in
    let w1 := set_heap (heap w ++ [extracted]) w in
    let url := scriptUrl (settings s) in
    let stage :=
      if autoExport (settings s) && negb (String.eqb url "") then
        let up := uploadToScript env n url w1 in
        let s1 := setLoadingStep (Some "uploading") s0 in
        (if fst up
         then setToastMessage "Auto-Export Successful! ✅" s1
         else setShowExportModal true
                (setToastMessage "Auto-Export Failed. Check settings." s1),
         snd up)
      else if autoExport (settings s)
      then (setToastMessage "Skipped Auto-Export: Script URL not set in Settings" s0, w1)
      else (setToastMessage
              ("Scanned " +:+ pretty (length extracted) +:+ " items for "
                 +:+ firstVendor extracted) s0, w1) in
    let next :=
      match scanMode s with
      | ScanAppend => alloc (array_at (snd stage) (items s) ++ extracted) (snd stage)
      | ScanNew => (n, snd stage)
      end in
    (setLoadingStep None
       (setIsProcessing false (setView REVIEW (setItems (fst next) (fst stage)))),
     snd next).
Proof.
  intros Hextract. unfold handleFileUpload. rewrite Hextract.
  repeat unfold mbind, M_bind. unfold alloc at 1.
  cbn [fst snd settings items scanMode setView setLoadingStep setIsProcessing].
  destruct (autoExport (settings s)); cbn [andb];
    [destruct (String.eqb (scriptUrl (settings s)) ""); cbn [negb]|].
  - unfold mret, M_ret, spread_with, contents. repeat unfold mbind, M_bind.
    cbn [fst snd settings items scanMode setToastMessage setShowExportModal
         setView setLoadingStep setIsProcessing].
    now destruct (scanMode s).
  - destruct (uploadToScript env (length (heap w)) (scriptUrl (settings s))
                (set_heap (heap w ++ [extracted]) w)) as [[|] w2];
      unfold mret, M_ret, spread_with, contents; repeat unfold mbind, M_bind;
      cbn [fst snd settings items scanMode setToastMessage setShowExportModal
           setView setLoadingStep setIsProcessing];
      now destruct (scanMode s).
  - unfold mret, M_ret, spread_with, contents. repeat unfold mbind, M_bind.
    cbn [fst snd settings items scanMode setToastMessage setShowExportModal
         setView setLoadingStep setIsProcessing].
    now destruct (scanMode s).
Qed.

Lemma handleFileUpload_throw_run (env : Env) (base64Data mimeType message : string)
    (s : AppState) (w : World) :
  extractInvoiceData (generateContent env) (freshId env) base64Data mimeType
    = Throw message ->
  handleFileUpload env (FileData base64Data mimeType) s w
  = (setLoadingStep None
       (setIsProcessing false
          (setView (match scanMode s with ScanAppend => REVIEW | ScanNew => DASHBOARD end)
             (setView SCAN (setLoadingStep (Some "analyzing") (setIsProcessing true s))))),
     {| heap := heap w; clipboard := clipboard w; requests := requests w;
        alerts := alerts w
                  ++ ["Failed to extract data. Use a clearer photo or try a smaller file."] |}).
Proof.
  intros Hextract. unfold handleFileUpload. rewrite Hextract.
  repeat unfold mbind, M_bind. unfold alert.
  cbn [scanMode setView setLoadingStep setIsProcessing].
  now destruct (scanMode s).
Qed.

(** X12: when the extraction fails, the table, the history, the
    clipboard and the store are what they were and no request is made; the
    user gets one alert, the view goes back to the review table in append
    mode and to the dashboard otherwise, and the processing state is
    cleared. *)
Theorem failed_scan_keeps_table (env : Env) (base64Data mimeType message : string)
    (s : AppState) (w : World) :
  extractInvoiceData (generateContent env) (freshId env) base64Data mimeType
    = Throw message ->
  let r := handleFileUpload env (FileData base64Data mimeType) s w in
  items (fst r) = items s /\ heap (snd r) = heap w /\
  history (fst r) = history s /\ clipboard (snd r) = clipboard w /\
  requests (snd r) = requests w /\
  alerts (snd r)
    = (alerts w ++ ["Failed to extract data. Use a clearer photo or try a smaller file."])%list /\
  view (fst r) = (match scanMode s with ScanAppend => REVIEW | ScanNew => DASHBOARD end) /\
  isProcessing (fst r) = false /\ loadingStep (fst r) = None /\
  toastMessage (fst r) = toastMessage s.
Proof.
  intros Hextract r. subst r.
  rewrite (handleFileUpload_throw_run _ _ _ _ _ _ Hextract).
  now repeat split.
Qed.

(** X13: after a successful extraction the review table shows the
    extracted rows, after the rows it already had in append mode and alone
    otherwise; no array that existed is written to, so what the history
    holds is kept. *)
Theorem scan_fills_table (env : Env) (base64Data mimeType : string)
    (extracted : list InvoiceItem) (s : AppState) (w : World) :
  allocated w (items s) ->
  extractInvoiceData (generateContent env) (freshId env) base64Data mimeType
    = Ok extracted ->
  let r := handleFileUpload env (FileData base64Data mimeType) s w in
  live r = (match scanMode s with
            | ScanAppend => live (s, w) ++ extracted
            | ScanNew => extracted
            end)%list /\
  view (fst r) = REVIEW /\ isProcessing (fst r) = false /\ loadingStep (fst r) = None /\
  preserves w (snd r).
Proof.
  intros Halloc Hextract r. subst r.
  rewrite (handleFileUpload_ok_run _ _ _ _ _ _ Hextract). cbv zeta.
  set (w1 := set_heap (heap w ++ [extracted]) w).
  assert (Hw1 : preserves w w1) by now eapply preserves_app.
  assert (Hnew : array_at w1 (length (heap w)) = extracted).
  { unfold w1, array_at, set_heap. cbn. rewrite lookup_app_r by lia.
    now rewrite Nat.sub_diag. }
  set (stage := if autoExport (settings s) && negb (String.eqb (scriptUrl (settings s)) "")
                then _ else _).
  assert (Hstage : preserves w1 (snd stage)).
  { subst stage.
    destruct (autoExport (settings s)); cbn [andb];
      [destruct (String.eqb (scriptUrl (settings s)) ""); cbn [negb]|];
      cbn [snd]; try apply preserves_refl.
    apply uploadToScript_preserves. }
  assert (Hkeep : preserves w (snd stage)) by now apply (preserves_trans w w1).
  assert (Hn : allocated w1 (length (heap w))).
  { unfold allocated, w1, set_heap. cbn. rewrite length_app. cbn. lia. }
  destruct (scanMode s); cbn [fst snd].
  - split; [|split; [reflexivity|split; [reflexivity|split; [reflexivity|exact Hkeep]]]].
    unfold live. cbn [fst snd items setLoadingStep setIsProcessing setView setItems].
    now rewrite (preserves_array_at w1 (snd stage) _ Hstage Hn).
  - split; [|split; [reflexivity|split; [reflexivity|split; [reflexivity|]]]].
    + unfold live. cbn [fst snd items setLoadingStep setIsProcessing setView setItems].
      rewrite (array_at_alloc (snd stage)).
      now rewrite (preserves_array_at w (snd stage) _ Hkeep Halloc).
    + eapply preserves_trans; [exact Hkeep|]. now eapply preserves_app.
Qed.

(** X14: the automatic export that follows a scan sends the rows of
    that scan and nothing else, also in append mode, where the rows already
    in the table are not sent again; it makes at most one request, never
    touches the clipboard or the history, and opens the export dialog
    exactly when the attempt did not report success. *)
Theorem auto_export_sends_scanned_rows (env : Env) (base64Data mimeType : string)
    (extracted : list InvoiceItem) (s : AppState) (w : World) :
  extractInvoiceData (generateContent env) (freshId env) base64Data mimeType
    = Ok extracted ->
  let url := scriptUrl (settings s) in
  let attempted := autoExport (settings s) && negb (String.eqb url "") in
  let body := webhookBody (map toExportRow (sorted_order byDescription extracted)) in
  let success :=
    match fetch env url body with
    | FetchText text => includes text "Success"
    | FetchThrew => false
    end in
  let r := handleFileUpload env (FileData base64Data mimeType) s w in
  requests (snd r) = (requests w ++ if attempted then [(url, body)] else [])%list /\
  clipboard (snd r) = clipboard w /\
  history (fst r) = history s /\
  showExportModal (fst r)
    = (if attempted && negb success then true else showExportModal s) /\
  toastMessage (fst r)
    = Some (if attempted
            then if success then "Auto-Export Successful! ✅"
                 else "Auto-Export Failed. Check settings."
            else if autoExport (settings s)
                 then "Skipped Auto-Export: Script URL not set in Settings"
                 else "Scanned " +:+ pretty (length extracted) +:+ " items for "
                        +:+ firstVendor extracted).
Proof.
  intros Hextract url attempted body success r. subst url attempted body success r.
  rewrite (handleFileUpload_ok_run _ _ _ _ _ _ Hextract). cbv zeta.
  assert (Hnew : exported (set_heap (heap w ++ [extracted]) w) (length (heap w))
                 = map toExportRow (sorted_order byDescription extracted)).
  { unfold exported, array_at, set_heap. cbn. rewrite lookup_app_r by lia.
    now rewrite Nat.sub_diag. }
  destruct (autoExport (settings s)); cbn [andb];
    [destruct (String.eqb_spec (scriptUrl (settings s)) "") as [Hurl|Hurl]; cbn [negb]|].
  - destruct (scanMode s); cbn; rewrite ?app_nil_r; now repeat split.
  - rewrite uploadToScript_run by assumption. rewrite Hnew. cbn [fst snd].
    destruct (fetch env _ _) as [|text]; [|destruct (includes text "Success")];
      destruct (scanMode s); cbn; now repeat split.
  - destruct (scanMode s); cbn; rewrite ?app_nil_r; now repeat split.
Qed.

(** X15: [handleFileUpload] adds nothing to the history, writes nothing
    to the clipboard and changes no array of the store, whatever the file,
    the answer of the model and the answer of the webhook; with no file
    chosen it does nothing at all. *)
Theorem scan_never_records (env : Env) (file : FileOutcome) (s : AppState) (w : World) :
  let r := handleFileUpload env file s w in
  history (fst r) = history s /\ clipboard (snd r) = clipboard w /\
  settings (fst r) = settings s /\ preserves w (snd r) /\
  (file = NoFile -> r = (s, w)).
Proof.
  intros r. subst r. destruct file as [| |base64Data mimeType].
  - repeat split. apply preserves_refl.
  - unfold handleFileUpload, alert. repeat unfold mbind, M_bind. cbn.
    split; [reflexivity|split; [reflexivity|split; [reflexivity|split;
      [now intros r l|discriminate]]]].
  - destruct (extractInvoiceData (generateContent env) (freshId env) base64Data mimeType)
      as [extracted|message] eqn:Hextract.
    + rewrite (handleFileUpload_ok_run _ _ _ _ _ _ Hextract). cbv zeta.
      set (w1 := set_heap (heap w ++ [extracted]) w).
      assert (Hw1 : preserves w w1) by now eapply preserves_app.
      destruct (autoExport (settings s)); cbn [andb];
        [destruct (String.eqb_spec (scriptUrl (settings s)) "") as [Hurl|Hurl];
         cbn [negb]|].
      * destruct (scanMode s); cbn;
          (split; [reflexivity|split; [reflexivity|split; [reflexivity|split;
            [|discriminate]]]]);
          [exact Hw1|]. eapply preserves_trans; [exact Hw1|]. now eapply preserves_app.
      * pose proof (uploadToScript_preserves env (length (heap w))
                      (scriptUrl (settings s)) w1) as Hup.
        assert (Hclip : clipboard (snd (uploadToScript env (length (heap w))
                                          (scriptUrl (settings s)) w1)) = clipboard w)
          by now rewrite uploadToScript_run.
        destruct (uploadToScript env (length (heap w)) (scriptUrl (settings s)) w1)
          as [[|] w2]; cbn [fst snd] in *;
          destruct (scanMode s); cbn;
          (split; [reflexivity|split; [exact Hclip|split; [reflexivity|split;
            [|discriminate]]]]);
          try (now apply (preserves_trans w w1 w2));
          (eapply preserves_trans; [apply (preserves_trans w w1 w2); eassumption|]);
          now eapply preserves_app.
      * destruct (scanMode s); cbn;
          (split; [reflexivity|split; [reflexivity|split; [reflexivity|split;
            [|discriminate]]]]);
          [exact Hw1|]. eapply preserves_trans; [exact Hw1|]. now eapply preserves_app.
    + rewrite (handleFileUpload_throw_run _ _ _ _ _ _ Hextract). cbn.
      repeat split; [|discriminate]. now intros r l.
Qed.

End Scanning.

Lemma failed_scan_keeps_table_witness :
  let env := Sample.env FetchThrew true (CallThrew NetworkFailure) in
  let s := triggerScan ScanAppend (Sample.state "https://script.example/exec" true) in
  let w := Sample.world Sample.table in
  let r := handleFileUpload (H := Sample.rt) env (FileData "AAAA" "image/jpeg") s w in
  extractInvoiceData (H := Sample.rt) (generateContent env) (freshId env) "AAAA" "image/jpeg"
    = Throw EXTRACTION_FAILED /\
  items (fst r) = items s /\ heap (snd r) = [Sample.table] /\
  view (fst r) = REVIEW /\ requests (snd r) = [].
Proof.
  intros env s w r.
  split; [reflexivity|].
  destruct (failed_scan_keeps_table (H := Sample.rt) env "AAAA" "image/jpeg"
              EXTRACTION_FAILED s w eq_refl)
    as (Hitems & Hheap & _ & _ & Hreq & _ & Hview & _).
  split; [exact Hitems|]. split; [exact Hheap|]. split; [exact Hview|exact Hreq].
Defined.

Lemma scan_fills_table_witness :
  let env := Sample.env (FetchText "Success") true (Responded (Some Sample.rice_text)) in
  let s := triggerScan ScanAppend (Sample.state "" false) in
  let w := Sample.world Sample.table in
  let r := handleFileUpload (H := Sample.rt) env (FileData "AAAA" "image/jpeg") s w in
  allocated w (items s) /\
  live r = (Sample.table ++
            [ {| id := "item-0"; description := "Rice"; vendor := "Asian Vegetables";
                 inStock := JNum 3; par := JNum 8; order := JNum 5; price := JNum 0 |} ])%list.
Proof.
  intros env s w r.
  assert (Halloc : allocated w (items s)) by (unfold allocated; cbn; lia).
  split; [exact Halloc|].
  now apply (scan_fills_table (H := Sample.rt) env "AAAA" "image/jpeg" _ s w Halloc eq_refl).
Defined.

Lemma auto_export_sends_scanned_rows_witness :
  let env := Sample.env (FetchText "Success") true (Responded (Some Sample.rice_text)) in
  let s := triggerScan ScanAppend (Sample.state "https://script.example/exec" true) in
  let w := Sample.world Sample.table in
  let r := handleFileUpload (H := Sample.rt) env (FileData "AAAA" "image/jpeg") s w in
  requests (snd r)
  = [("https://script.example/exec",
      webhookBody
        [ {| row_inStock := JNum 3; row_par := JNum 8; row_order := JNum 5;
             row_description := "Rice"; row_vendor := "Asian Vegetables";
             row_price := JNum 0 |} ])].
Proof.
  intros env s w r.
  destruct (auto_export_sends_scanned_rows (H := Sample.rt) env "AAAA" "image/jpeg"
              _ s w eq_refl) as (Hreq & _).
  fold r in Hreq. rewrite Hreq. reflexivity.
Defined.

Section Reopening.
Context `{JSRuntime}.

Lemma applyEdit_history (env : Env) (e : Edit) (s : AppState) (w : World) :
  history (fst (applyEdit env e s w)) = history s.
Proof.
  destruct e as [id_ field value|id_| |]; cbn [applyEdit].
  - unfold updateItem. repeat unfold mbind, M_bind. reflexivity.
  - unfold deleteItem. repeat unfold mbind, M_bind. reflexivity.
  - unfold addItem, spread_with. repeat unfold mbind, M_bind. reflexivity.
  - unfold sortItems. repeat unfold mbind, M_bind.
    destruct (spread (items s) w) as [copy w1].
    now destruct (array_sort byDescription copy w1) as [r w2].
Qed.

Lemma applyEdits_history (env : Env) (es : list Edit) (r : AppState * World) :
  history (fst (applyEdits env es r)) = history (fst r).
Proof.
  revert r. induction es as [|e es IH]; intros r; cbn [applyEdits]; [reflexivity|].
  rewrite IH. apply applyEdit_history.
Qed.

(** X16: whatever is edited, added, deleted or sorted after an export,
    the history is not changed by it, and reopening the record of that
    export shows the table as it was exported. *)
Theorem reopening_restores_export (env : Env) (es : list Edit)
    (s : AppState) (w : World) :
  allocated w (items s) ->
  let saved := handleManualExport env s w in
  let later := applyEdits env es saved in
  exists record : InvoiceRecord,
    history (fst later) = record :: history s /\
    live (openRecord record (fst later), snd later) = live (s, w) /\
    view (openRecord record (fst later)) = REVIEW.
Proof.
  intros Halloc saved later.
  destruct (handleManualExport_effect env s w) as (Hh & _ & Hkeep).
  exists (exportRecord env s w).
  split; [subst later; now rewrite applyEdits_history|].
  split; [|reflexivity].
  unfold live. cbn [fst snd openRecord items setView setItems exportRecord record_items].
  apply preserves_array_at; [|exact Halloc].
  eapply preserves_trans; [exact Hkeep|apply applyEdits_preserves].
Qed.

Lemma testConnection_run (env : Env) (s : AppState) (w : World) :
  scriptUrl (settings s) <> "" ->
  testConnection env s w
  = let up := uploadToScript env (length (heap w)) (scriptUrl (settings s))
                (set_heap (heap w ++ [[testItem]]) w) in
    (setToastMessage
       (if fst up then "Connection Successful! ✅"
        else "Connection Failed. Check 'Who has access' is set to 'Anyone'")
       (setToastMessage "Testing connection..." s),
     snd up).
Proof.
  intros Hurl. unfold testConnection.
  destruct (String.eqb_spec (scriptUrl (settings s)) "") as [|_]; [contradiction|].
  repeat unfold mbind, M_bind. unfold alloc at 1. cbn [settings setToastMessage].
  now destruct (uploadToScript env (length (heap w)) (scriptUrl (settings s))
                  (set_heap (heap w ++ [[testItem]]) w)) as [[|] w1].
Qed.

(** X17: the connection test sends one fixed row to the configured
    webhook and reports by the response; it leaves the table, the history
    and the clipboard as they are, and without a URL it makes no request. *)
Theorem connection_test_leaves_table (env : Env) (s : AppState) (w : World) :
  allocated w (items s) ->
  let url := scriptUrl (settings s) in
  let body := webhookBody [toExportRow testItem] in
  let r := testConnection env s w in
  live r = live (s, w) /\ history (fst r) = history s /\
  clipboard (snd r) = clipboard w /\ preserves w (snd r) /\
  requests (snd r) = (requests w ++ if String.eqb url "" then [] else [(url, body)])%list /\
  toastMessage (fst r)
    = Some (if String.eqb url "" then "Paste a URL first!"
            else match fetch env url body with
                 | FetchText text =>
                     if includes text "Success" then "Connection Successful! ✅"
                     else "Connection Failed. Check 'Who has access' is set to 'Anyone'"
                 | FetchThrew =>
                     "Connection Failed. Check 'Who has access' is set to 'Anyone'"
                 end).
Proof.
  intros Halloc url body r. subst url body r.
  destruct (String.eqb_spec (scriptUrl (settings s)) "") as [Hurl|Hurl].
  - unfold testConnection. rewrite Hurl. cbn. rewrite app_nil_r.
    repeat split. apply preserves_refl.
  - rewrite (testConnection_run env s w Hurl). cbv zeta.
    rewrite uploadToScript_run by assumption.
    assert (Hrows : exported (set_heap (heap w ++ [[testItem]]) w) (length (heap w))
                    = [toExportRow testItem]).
    { unfold exported, array_at, set_heap. cbn. rewrite lookup_app_r by lia.
      now rewrite Nat.sub_diag. }
    rewrite Hrows. cbn [fst snd]. unfold live. cbn [fst snd items setToastMessage
      history clipboard requests toastMessage set_heap heap].
    split; [rewrite <- app_assoc; now apply array_at_extended|].
    split; [reflexivity|]. split; [reflexivity|].
    split; [eapply preserves_app; cbn; now rewrite <- app_assoc|].
    split; [reflexivity|].
    destruct (fetch env _ _) as [|text]; [reflexivity|].
    now destruct (includes text "Success").
Qed.

End Reopening.

Lemma reopening_restores_export_witness :
  let env := Sample.env (FetchText "Success") true (Responded None) in
  let s := Sample.state "https://script.example/exec" false in
  let w := Sample.world Sample.table in
  let es := [EditDelete "a"; EditUpdate "b" FPar (JStr "9"); EditSort] in
  let later := applyEdits (H := Sample.rt) env es (handleManualExport (H := Sample.rt) env s w) in
  allocated w (items s) /\
  length (live later) = 2%nat /\
  exists record : InvoiceRecord,
    live (openRecord record (fst later), snd later) = Sample.table.
Proof.
  intros env s w es later.
  assert (Halloc : allocated w (items s)) by (unfold allocated; cbn; lia).
  split; [exact Halloc|]. split; [reflexivity|].
  destruct (reopening_restores_export (H := Sample.rt) env es s w Halloc)
    as (record & _ & Hlive & _).
  exists record. exact Hlive.
Defined.

Lemma connection_test_leaves_table_witness :
  let env := Sample.env (FetchText "Success") true (Responded None) in
  let s := Sample.state "https://script.example/exec" false in
  let w := Sample.world Sample.table in
  allocated w (items s) /\
  live (testConnection (H := Sample.rt) env s w) = Sample.table /\
  toastMessage (fst (testConnection (H := Sample.rt) env s w))
    = Some "Connection Successful! ✅".
Proof.
  intros env s w.
  assert (Halloc : allocated w (items s)) by (unfold allocated; cbn; lia).
  split; [exact Halloc|].
  destruct (connection_test_leaves_table (H := Sample.rt) env s w Halloc)
    as (Hlive & _ & _ & _ & _ & Htoast).
  split; [exact Hlive|]. rewrite Htoast. reflexivity.
Defined.

(** ** Settings read at start *)

(** X18: whatever is stored, the settings read at start point to the
    built-in sheet; with nothing stored, or a text that cannot be read,
    they are the defaults (no webhook, auto-export on); otherwise the
    stored webhook URL is used and auto-export is off only when the stored
    settings switch it off. *)
Theorem settings_read_at_start (parse : string -> option StoredSettings)
    (savedSettings : option string) :
  let loaded := loadSettings parse savedSettings in
  googleSheetUrl loaded = DEFAULT_SHEET_URL /\
  (savedSettings = None \/ savedSettings = Some "" \/
   (exists text, savedSettings = Some text /\ parse text = None) ->
     loaded = defaultSettings) /\
  (forall text stored, savedSettings = Some text -> text <> "" ->
     parse text = Some stored ->
     scriptUrl loaded = default "" (stored_scriptUrl stored) /\
     autoExport loaded = default true (stored_autoExport stored)) /\
  (autoExport loaded = false ->
     exists text stored, savedSettings = Some text /\ parse text = Some stored /\
       stored_autoExport stored = Some false).
Proof.
  intros loaded. subst loaded. unfold loadSettings.
  destruct savedSettings as [text|].
  - destruct (String.eqb_spec text "") as [->|Htext].
    + split; [reflexivity|]. split; [reflexivity|]. split; [|discriminate].
      intros text stored Hs Hne. injection Hs as <-. contradiction.
    + destruct (parse text) as [stored|] eqn:Hparse.
      * split; [reflexivity|]. split; [|split].
        -- intros [Hs|[Hs|(t & Hs & Hp)]]; try discriminate.
           ++ injection Hs as ->. contradiction.
           ++ injection Hs as <-. congruence.
        -- intros t st Hs _ Hp. injection Hs as <-. rewrite Hparse in Hp.
           injection Hp as <-. now split.
        -- cbn. intros Hauto. exists text, stored. split; [reflexivity|].
           split; [exact Hparse|].
           destruct (stored_autoExport stored) as [[|]|]; cbn in Hauto;
             congruence.
      * split; [reflexivity|]. split; [reflexivity|]. split; [|discriminate].
        intros t st Hs _ Hp. injection Hs as <-. congruence.
  - split; [reflexivity|]. split; [reflexivity|]. split; [|discriminate].
    intros t st Hs. discriminate Hs.
Qed.

Lemma settings_read_at_start_witness :
  let parse := fun text : string =>
    if String.eqb text "stored" then
      Some {| stored_scriptUrl := Some "https://script.example/exec";
              stored_autoExport := Some false |}
    else None in
  loadSettings parse (Some "stored")
  = {| googleSheetUrl := DEFAULT_SHEET_URL;
       scriptUrl := "https://script.example/exec"; autoExport := false |} /\
  loadSettings parse (Some "{ broken") = defaultSettings.
Proof.
  intros parse. split; [reflexivity|].
  apply (settings_read_at_start parse (Some "{ broken")).
  right. right. now exists "{ broken".
Defined.

Lemma delete_removes_every_match_witness :
  let s := Sample.state "" false in
  let w := Sample.world Sample.table in
  (forall item : InvoiceItem, item ∈ live (s, w) -> id item <> "zz") /\
  live (deleteItem "zz" s w) = live (s, w) /\
  live (deleteItem "b" s w)
  = [Sample.item "a" "banana" 2 6 4; Sample.item "c" "apple" 0 10 10].
Proof.
  intros s w.
  assert (Hnone : forall item : InvoiceItem, item ∈ live (s, w) -> id item <> "zz").
  { intros item Hitem. apply list_elem_of_In in Hitem.
    destruct Hitem as [<- | [<- | [<- | []]]]; discriminate. }
  split; [exact Hnone|]. split; [|reflexivity].
  now apply (delete_removes_every_match "zz" s w).
Defined.

Lemma scan_never_records_witness :
  let env := Sample.env (FetchText "Success") true (Responded (Some Sample.rice_text)) in
  let s := Sample.state "https://script.example/exec" true in
  let w := Sample.world Sample.table in
  handleFileUpload (H := Sample.rt) env NoFile s w = (s, w) /\
  history (fst (handleFileUpload (H := Sample.rt) env (FileData "AAAA" "image/jpeg") s w)) = [].
Proof.
  intros env s w. split.
  - now apply (scan_never_records (H := Sample.rt) env NoFile s w).
  - apply (scan_never_records (H := Sample.rt) env (FileData "AAAA" "image/jpeg") s w).
Defined.
